(** * CornCare consultation chat: unread tracking, polling and send handlers

    A shallow embedding of the chat client of the CornCare frontend
    ([frontend/src/lib/auth-api.ts], [components/UserChatPanel.tsx],
    [components/ExpertChatPanel.tsx], [components/NotificationBadge.tsx],
    [components/ChatIcon.tsx], [pages/ExpertDashboard.tsx] and
    [pages/ExpertConsultation.tsx]) together with the properties of the
    unread-notification subsystem that are stated about it.

    Conventions of the embedding.
    - An [async] function is a [Task]: a function of the component state that
      returns the new state and either a value or a rejection.  State changes
      made before a rejection persist, as they do in JavaScript.
    - [try { .. } catch { .. }] is [try_catch]; [await] of an HTTP call is
      [request]: the call is recorded and settles as the backend answers it.
    - [setX(prev => f prev)] is [modify] with the update applied to the
      current state.  A variable that a handler reads directly
      ([openChatId], [lastMessageCounts[id]], [selectedChatRequest]) is read
      from the render whose closure the handler belongs to, which the
      handlers take as their [render] argument.
    - Counts are JavaScript numbers that hold integers; they are in [Z].
    - Request ids are opaque keys ([string]); message bodies, which the send
      handlers trim, are sequences of UTF-16 code units. *)

From Stdlib Require Import ZArith List Lia Bool Permutation.
From stdpp Require Import base option numbers list gmap strings.

Set Default Proof Using "Type".

(** ** JavaScript values, strings and promises *)

Module Js.

(** The payload of a JSON response.  Numbers are restricted to integers. *)
#[local] Unset Elimination Schemes.
Inductive Value : Type :=
| VUndefined
| VNull
| VBool (b : bool)
| VNumber (n : Z)
| VString (s : string)
| VArray (items : list Value)
| VObject (fields : list (string * Value)).
#[local] Set Elimination Schemes.

(** Own property [k] of an object's property table. *)
Fixpoint own_property (k : string) (fields : list (string * Value)) : Value :=
  match fields with
  | [] => VUndefined
  | (k', v) :: rest => if bool_decide (k' = k) then v else own_property k rest
  end.

(** [v?.unread]: [undefined] on [null] and [undefined], the property of an
    object, and [undefined] on every primitive and on arrays, none of which
    has a property of that name. *)
Definition optional_unread (v : Value) : Value :=
  match v with
  | VObject fields => own_property "unread" fields
  | _ => VUndefined
  end.

(** A string as its UTF-16 code units. *)
Definition Text := list N.

(** ECMAScript [WhiteSpace] and [LineTerminator] code units, the ones
    [String.prototype.trim] removes. *)
Definition is_whitespace (c : N) : bool :=
  ((9 <=? c) && (c <=? 13) || (c =? 32) || (c =? 160) || (c =? 5760)
   || (8192 <=? c) && (c <=? 8202) || (c =? 8232) || (c =? 8233)
   || (c =? 8239) || (c =? 8287) || (c =? 12288) || (c =? 65279))%N.

Fixpoint trim_start (s : Text) : Text :=
  match s with
  | [] => []
  | c :: rest => if is_whitespace c then trim_start rest else s
  end.

Definition trim_end (s : Text) : Text := rev (trim_start (rev s)).

(** [s.trim()] *)
Definition trim (s : Text) : Text := trim_end (trim_start s).

(** Truthiness of a string: the empty string is the only falsy one. *)
Definition truthy (s : Text) : bool :=
  match s with [] => false | _ :: _ => true end.

(** [a && b] on strings: [a] when [a] is falsy, [b] otherwise. *)
Definition and_then (a b : Text) : Text := if truthy a then b else a.

(** [m[k] || 0] on a map of numbers: [undefined] and [0] both give [0]. *)
Definition or_zero (v : option Z) : Z :=
  match v with
  | Some n => if (n =? 0)%Z then 0%Z else n
  | None => 0%Z
  end.

End Js.

(** ** Errors and tasks *)

(** The errors of the chat core (section 7 of the specification), and the
    [TypeError] that JavaScript throws when a property of [null] or
    [undefined] is read.  The client never inspects the error it catches. *)
Inductive Error : Type :=
| ValidationError
| NotFoundError
| ForbiddenError
| TransientBackendError
| TypeError.

(** A settled promise. *)
Inductive Result (A : Type) : Type :=
| Resolved (a : A)
| Rejected (e : Error).
Arguments Resolved {A} a.
Arguments Rejected {A} e.

Definition is_resolved {A} (r : Result A) : bool :=
  match r with Resolved _ => true | Rejected _ => false end.

(** An asynchronous function over a component state [S]. *)
Definition Task (S A : Type) : Type := S -> S * Result A.

Section Tasks.
Context {S : Type}.

Definition ret {A} (a : A) : Task S A := fun s => (s, Resolved a).

Definition bind {A B} (m : Task S A) (k : A -> Task S B) : Task S B :=
  fun s =>
    match m s with
    | (s', Resolved a) => k a s'
    | (s', Rejected e) => (s', Rejected e)
    end.

(** A state setter call. *)
Definition modify (f : S -> S) : Task S unit := fun s => (f s, Resolved tt).

(** [try { body } catch (e) { handler e }] *)
Definition try_catch {A} (body : Task S A) (handler : Error -> Task S A)
  : Task S A :=
  fun s =>
    match body s with
    | (s', Resolved a) => (s', Resolved a)
    | (s', Rejected e) => handler e s'
    end.

(** [try { body } finally { cleanup }] with a cleanup that cannot throw. *)
Definition finally {A} (body : Task S A) (cleanup : S -> S) : Task S A :=
  fun s => let '(s', r) := body s in (cleanup s', r).

(** [for (const x of xs) { body x }]; a rejection leaves the loop. *)
Fixpoint for_of {X} (xs : list X) (body : X -> Task S unit) : Task S unit :=
  match xs with
  | [] => ret tt
  | x :: rest => bind (body x) (fun _ => for_of rest body)
  end.

(** A task that cannot reject, whatever the state. *)
Definition never_rejects {A} (m : Task S A) : Prop :=
  forall s, is_resolved (snd (m s)) = true.

End Tasks.

Declare Scope task_scope.
Delimit Scope task_scope with task.
Notation "x <- m ;; k" := (bind m (fun x => k))
  (at level 100, m at next level, right associativity) : task_scope.
Notation "m ;; k" := (bind m (fun _ => k))
  (at level 100, right associativity) : task_scope.
Open Scope task_scope.

(** ** Data model of [auth-api.ts] *)

Inductive Sender : Type := user | expert.

#[global] Instance Sender_eq_dec : EqDecision Sender.
Proof. solve_decision. Defined.

(** The other participant of a conversation. *)
Definition counterpart (who : Sender) : Sender :=
  match who with user => expert | expert => user end.

(** A browser [File] picked as attachment. *)
Record File : Type := mkFile {
  filename : string;
  mimetype : string;
  bytes : Z
}.

Record ChatMessage : Type := mkChatMessage {
  id : string;
  request_id : string;
  sender : Sender;
  message : Js.Text;
  timestamp : string;
  file_url : option string;
  file_name : option string;
  file_mime : option string;
  file_size : option Z
}.

(** [messages.filter(m => m.sender === who)] *)
Definition sent_by (who : Sender) (messages : list ChatMessage)
  : list ChatMessage :=
  filter (fun m => sender m = who) messages.

(** [messages.filter(m => m.sender === who).length] *)
Definition count_sent_by (who : Sender) (messages : list ChatMessage) : Z :=
  Z.of_nat (length (sent_by who messages)).

(** The HTTP calls the client issues. *)
Inductive Call : Type :=
| GetExpertRequests
| GetPendingRequests
| GetMyRequests
| PostStart (requestId : string)
| GetMessages (who : Sender) (requestId : string)
| PostMessage (who : Sender) (requestId : string) (text : Js.Text)
    (upload : option File)
| PostRead (requestId : string)
| GetUnreadCount (requestId : string).

(** The responses of the backend to the calls one handler run makes.  The
    message and send endpoints answer the farmer and the expert under their
    own credentials, hence the [Sender] argument. *)
Record Http : Type := mkHttp {
  (** [GET /expert/requests], [GET /expert-dashboard/pending-requests],
      [GET /expert-dashboard/my-requests]: the ids of the consultation
      requests, in the order returned. *)
  get_expert_requests : Result (list string);
  get_pending_requests : Result (list string);
  get_my_requests : Result (list string);
  (** [POST /expert/chat/:id/start] *)
  post_start : string -> Result unit;
  (** [GET /expert/chat/:id/messages] *)
  get_messages : Sender -> string -> Result (list ChatMessage);
  (** [POST /expert/chat/:id/message] *)
  post_message : Sender -> string -> Js.Text -> option File -> Result ChatMessage;
  (** [POST /expert/chat/:id/read] *)
  post_read : string -> Result unit;
  (** [GET /expert/chat/:id/unread_count]: the response body [res.data]. *)
  get_unread_count : string -> Result Js.Value
}.

(** A component state that keeps the list of the calls issued so far, oldest
    first. *)
Class Network (S : Type) : Type := record_call : Call -> S -> S.

(** Issue call [c]; the backend settles it as [r]. *)
Definition request {S} `{Network S} {A} (c : Call) (r : Result A)
  : Task S A :=
  fun s => (record_call c s, r).

(** [await Promise.all([p, q])] of two calls: both are issued, and the result
    is rejected as soon as one of them is. *)
Definition promise_all2 {S} `{Network S} {A B}
    (c1 : Call) (r1 : Result A) (c2 : Call) (r2 : Result B)
  : Task S (A * B) :=
  fun s =>
    (record_call c2 (record_call c1 s),
     match r1, r2 with
     | Resolved a, Resolved b => Resolved (a, b)
     | Rejected e, _ => Rejected e
     | _, Rejected e => Rejected e
     end).

(** ** [lib/auth-api.ts] and the request helpers of [ExpertAuthContext] *)

Module AuthApi.
Section WithState.
Context {S : Type} `{Network S}.

Definition getExpertRequests (http : Http) : Task S (list string) :=
  request GetExpertRequests (get_expert_requests http).

Definition startChatSession (http : Http) (requestId : string)
  : Task S unit :=
  request (PostStart requestId) (post_start http requestId).

(** [formData.append('message', message || '')], the upload when there is
    one, then the POST. *)
Definition sendChatMessage (http : Http) (requestId : string)
    (message : Js.Text) (file : option File) : Task S ChatMessage :=
  request (PostMessage user requestId message file)
          (post_message http user requestId message file).

Definition getChatMessages (http : Http) (requestId : string)
  : Task S (list ChatMessage) :=
  request (GetMessages user requestId) (get_messages http user requestId).

Definition sendExpertChatMessage (http : Http) (requestId : string)
    (message : Js.Text) (file : option File) : Task S ChatMessage :=
  request (PostMessage expert requestId message file)
          (post_message http expert requestId message file).

Definition getExpertChatMessages (http : Http) (requestId : string)
  : Task S (list ChatMessage) :=
  request (GetMessages expert requestId)
          (get_messages http expert requestId).

Definition markChatRead (http : Http) (requestId : string) : Task S unit :=
  request (PostRead requestId) (post_read http requestId).

(** [typeof res.data?.unread === 'number' ? res.data.unread : 0] *)
Definition unread_of_payload (data : Js.Value) : Z :=
  match Js.optional_unread data with
  | Js.VNumber n => n
  | _ => 0%Z
  end.

Definition getUnreadCount (http : Http) (requestId : string) : Task S Z :=
  data <- request (GetUnreadCount requestId)
                  (get_unread_count http requestId) ;;
  ret (unread_of_payload data).

End WithState.
End AuthApi.

(** ** [components/NotificationBadge.tsx] and [components/ChatIcon.tsx] *)

(** What a rendered badge shows: a string literal or a number, which React
    prints in decimal. *)
Inductive BadgeLabel : Type :=
| LabelText (s : string)
| LabelNumber (n : Z).

Module NotificationBadge.

(** [if (count === 0) return null; .. {count > 99 ? '99+' : count}] *)
Definition render (count : Z) : option BadgeLabel :=
  if (count =? 0)%Z then None
  else Some (if (99 <? count)%Z then LabelText "99+" else LabelNumber count).

End NotificationBadge.

Module ChatIcon.

(** [unreadCount = 0] default of the props, then
    [<NotificationBadge count={unreadCount} />]. *)
Definition badge (unreadCount : option Z) : option BadgeLabel :=
  NotificationBadge.render (default 0%Z unreadCount).

End ChatIcon.

(** ** The chat panels: [UserChatPanel.tsx] and [ExpertChatPanel.tsx]

    The two components are twins with the roles swapped.  [ChatPanel] is their
    common text, with the viewer's role [who] as parameter: the farmer's panel
    is [who = user] and calls [getChatMessages] / [sendChatMessage], the
    expert's is [who = expert] and calls [getExpertChatMessages] /
    [sendExpertChatMessage]. *)

(** The state of a mounted panel, and what it has done to the outside: how
    often it invoked [onNewMessage], the alerts it raised and the calls it
    issued. *)
Record PanelState : Type := mkPanelState {
  messages : list ChatMessage;
  newMessage : Js.Text;
  sending : bool;
  file : option File;
  showEmoji : bool;
  notifications : nat;
  alerts : list string;
  panel_calls : list Call
}.

#[global] Instance PanelState_network : Network PanelState :=
  fun c st =>
    mkPanelState (messages st) (newMessage st) (sending st) (file st)
      (showEmoji st) (notifications st) (alerts st) (panel_calls st ++ [c]).

Definition setMessages (f : list ChatMessage -> list ChatMessage)
    (st : PanelState) : PanelState :=
  mkPanelState (f (messages st)) (newMessage st) (sending st) (file st)
    (showEmoji st) (notifications st) (alerts st) (panel_calls st).

Definition setNewMessage (text : Js.Text) (st : PanelState) : PanelState :=
  mkPanelState (messages st) text (sending st) (file st)
    (showEmoji st) (notifications st) (alerts st) (panel_calls st).

Definition setSending (b : bool) (st : PanelState) : PanelState :=
  mkPanelState (messages st) (newMessage st) b (file st)
    (showEmoji st) (notifications st) (alerts st) (panel_calls st).

Definition setFile (f : option File) (st : PanelState) : PanelState :=
  mkPanelState (messages st) (newMessage st) (sending st) f
    (showEmoji st) (notifications st) (alerts st) (panel_calls st).

Definition setShowEmoji (b : bool) (st : PanelState) : PanelState :=
  mkPanelState (messages st) (newMessage st) (sending st) (file st)
    b (notifications st) (alerts st) (panel_calls st).

(** One invocation of the [onNewMessage] prop. *)
Definition onNewMessage (st : PanelState) : PanelState :=
  mkPanelState (messages st) (newMessage st) (sending st) (file st)
    (showEmoji st) (S (notifications st)) (alerts st) (panel_calls st).

(** [alert(text)] *)
Definition alert (text : string) (st : PanelState) : PanelState :=
  mkPanelState (messages st) (newMessage st) (sending st) (file st)
    (showEmoji st) (notifications st) (alerts st ++ [text]) (panel_calls st).

(** The props the handlers read: the conversation, and whether the optional
    [onNewMessage] callback was passed. *)
Record PanelProps : Type := mkPanelProps {
  requestId : string;
  onNewMessage_given : bool
}.

Module ChatPanel.
Section Panel.
Variable who : Sender.
Variable failure_text : string.

Definition fetch_messages (http : Http) (rid : string)
  : Task PanelState (list ChatMessage) :=
  match who with
  | user => AuthApi.getChatMessages http rid
  | expert => AuthApi.getExpertChatMessages http rid
  end.

Definition send_message (http : Http) (rid : string) (text : Js.Text)
    (upload : option File) : Task PanelState ChatMessage :=
  match who with
  | user => AuthApi.sendChatMessage http rid text upload
  | expert => AuthApi.sendExpertChatMessage http rid text upload
  end.

(** The updater passed to [setMessages] by the polling callback: compare
    the numbers of counterpart messages, notify, and return [latest]. *)
Definition adopt_latest (props : PanelProps) (latest : list ChatMessage)
    (st : PanelState) : PanelState :=
  let counterpartMessages := sent_by (counterpart who) latest in
  let prevCounterpartMessages := sent_by (counterpart who) (messages st) in
  let st :=
    if (length prevCounterpartMessages <? length counterpartMessages)%nat
       && onNewMessage_given props
    then onNewMessage st else st in
  setMessages (fun _ => latest) st.

(** The callback of [setInterval(.., 3000)]. *)
Definition interval_tick (props : PanelProps) (http : Http)
  : Task PanelState unit :=
  try_catch
    (latest <- fetch_messages http (requestId props) ;;
     modify (adopt_latest props latest))
    (fun _ => ret tt).

(** [(!(newMessage && newMessage.trim()) && !file) || sending] *)
Definition nothing_to_send (st : PanelState) : bool :=
  negb (Js.truthy (Js.and_then (newMessage st) (Js.trim (newMessage st))))
  && negb (bool_decide (is_Some (file st)))
  || sending st.

(** [handleSend] / [handleSendMessage] *)
Definition handleSend (props : PanelProps) (http : Http)
  : Task PanelState unit :=
  fun st =>
    if nothing_to_send st then (st, Resolved tt)
    else
      (modify (setSending true) ;;
       finally
         (try_catch
            (msg <- send_message http (requestId props)
                      (newMessage st) (file st) ;;
             modify (setMessages (fun prev => prev ++ [msg])) ;;
             modify (setNewMessage []) ;;
             modify (setFile None) ;;
             modify (setShowEmoji false))
            (fun _ => modify (alert failure_text)))
         (setSending false)) st.

End Panel.
End ChatPanel.

Module UserChatPanel.
Definition interval_tick := ChatPanel.interval_tick user.
Definition handleSend := ChatPanel.handleSend user "Failed to send message".
End UserChatPanel.

Module ExpertChatPanel.
Definition interval_tick := ChatPanel.interval_tick expert.
End ExpertChatPanel.

(** ** The dashboards: [ExpertDashboard.tsx] and [ExpertConsultation.tsx]

    Both pages keep the same chat state.  The chat that was selected is kept
    by its request id: [selectedChatRequest] on the expert's page and
    [activeChat] on the farmer's. *)

Record Dashboard : Type := mkDashboard {
  unreadCounts : gmap string Z;
  lastMessageCounts : gmap string Z;
  openChatId : option string;
  showChat : bool;
  selectedChat : option string;
  dashboard_calls : list Call
}.

#[global] Instance Dashboard_network : Network Dashboard :=
  fun c st =>
    mkDashboard (unreadCounts st) (lastMessageCounts st) (openChatId st)
      (showChat st) (selectedChat st) (dashboard_calls st ++ [c]).

Definition setUnreadCounts (f : gmap string Z -> gmap string Z)
    (st : Dashboard) : Dashboard :=
  mkDashboard (f (unreadCounts st)) (lastMessageCounts st) (openChatId st)
    (showChat st) (selectedChat st) (dashboard_calls st).

Definition setLastMessageCounts (f : gmap string Z -> gmap string Z)
    (st : Dashboard) : Dashboard :=
  mkDashboard (unreadCounts st) (f (lastMessageCounts st)) (openChatId st)
    (showChat st) (selectedChat st) (dashboard_calls st).

Definition setOpenChatId (v : option string) (st : Dashboard) : Dashboard :=
  mkDashboard (unreadCounts st) (lastMessageCounts st) v
    (showChat st) (selectedChat st) (dashboard_calls st).

Definition setShowChat (b : bool) (st : Dashboard) : Dashboard :=
  mkDashboard (unreadCounts st) (lastMessageCounts st) (openChatId st)
    b (selectedChat st) (dashboard_calls st).

Definition setSelectedChat (v : option string) (st : Dashboard) : Dashboard :=
  mkDashboard (unreadCounts st) (lastMessageCounts st) (openChatId st)
    (showChat st) v (dashboard_calls st).

(** The state of the first render: what the closure registered with
    [setInterval] in the mount effect reads for [openChatId] and
    [lastMessageCounts]. *)
Definition initial_render : Dashboard :=
  mkDashboard ∅ ∅ None false None [].

(** [unreadCount={unreadCounts[request.id] || 0}], the count handed to the
    chat icon of a request. *)
Definition displayed_unread (st : Dashboard) (rid : string) : Z :=
  Js.or_zero (unreadCounts st !! rid).

Module ExpertDashboard.

(** The body of the loop of [checkForNewMessages] for one request. *)
Definition check_request (render : Dashboard) (http : Http) (rid : string)
  : Task Dashboard unit :=
  if bool_decide (openChatId render = Some rid) then ret tt
  else
    try_catch
      (unread <- AuthApi.getUnreadCount http rid ;;
       modify (setUnreadCounts (fun prev => <[rid := unread]> prev)) ;;
       if (unread =? 0)%Z then
         try_catch
           (messages <- AuthApi.getExpertChatMessages http rid ;;
            let userMessages := sent_by user messages in
            modify (setLastMessageCounts
                      (fun prev => <[rid := Z.of_nat (length userMessages)]> prev)))
           (fun _ => ret tt)
       else ret tt)
      (fun _ =>
         try_catch
           (messages <- AuthApi.getExpertChatMessages http rid ;;
            let userMessages := sent_by user messages in
            let currentCount := Z.of_nat (length userMessages) in
            let lastKnown := Js.or_zero (lastMessageCounts render !! rid) in
            let unread := Z.max 0 (currentCount - lastKnown) in
            modify (setUnreadCounts (fun prev => <[rid := unread]> prev)) ;;
            modify (setLastMessageCounts
                      (fun prev => <[rid := currentCount]> prev)))
           (fun _ => ret tt)).

Definition checkForNewMessages (render : Dashboard) (http : Http)
  : Task Dashboard unit :=
  try_catch
    (both <- promise_all2 GetPendingRequests (get_pending_requests http)
                          GetMyRequests (get_my_requests http) ;;
     let pendingData := fst both in
     let myData := snd both in
     let allRequests := pendingData ++ myData in
     for_of allRequests (check_request render http))
    (fun _ => ret tt).

Definition handleStartChat (http : Http) (rid : string)
  : Task Dashboard unit :=
  try_catch (AuthApi.markChatRead http rid) (fun _ => ret tt) ;;
  modify (setUnreadCounts (fun prev => <[rid := 0%Z]> prev)) ;;
  modify (setOpenChatId (Some rid)) ;;
  modify (setSelectedChat (Some rid)) ;;
  modify (setShowChat true).

Definition markMessagesAsRead (http : Http) (rid : string)
  : Task Dashboard unit :=
  try_catch
    (AuthApi.markChatRead http rid ;;
     modify (setUnreadCounts (fun prev => <[rid := 0%Z]> prev)))
    (fun _ => ret tt).

(** The mark-read request of [handleCloseChat] is issued by an [async]
    function that is called and not awaited; its outcome changes no
    state. *)
Definition handleCloseChat (render : Dashboard) (http : Http)
  : Task Dashboard unit :=
  match selectedChat render with
  | Some rid =>
      modify (setUnreadCounts (fun prev => <[rid := 0%Z]> prev)) ;;
      try_catch (AuthApi.markChatRead http rid) (fun _ => ret tt)
  | None => ret tt
  end ;;
  modify (setShowChat false) ;;
  modify (setSelectedChat None) ;;
  modify (setOpenChatId None).

Definition handleNewMessage (render : Dashboard) (rid : string)
    (st : Dashboard) : Dashboard :=
  if bool_decide (openChatId render = Some rid) then
    setUnreadCounts (fun prev => <[rid := 0%Z]> prev) st
  else
    setUnreadCounts
      (fun prev => <[rid := (Js.or_zero (prev !! rid) + 1)%Z]> prev) st.

End ExpertDashboard.

Module ExpertConsultation.

(** The body of the loop of [checkForNewMessages] for one request. *)
Definition check_request (render : Dashboard) (http : Http) (rid : string)
  : Task Dashboard unit :=
  if bool_decide (openChatId render = Some rid) then ret tt
  else
    try_catch
      (unread <- AuthApi.getUnreadCount http rid ;;
       modify (setUnreadCounts (fun prev => <[rid := unread]> prev)))
      (fun _ => ret tt).

Definition checkForNewMessages (render : Dashboard) (http : Http)
  : Task Dashboard unit :=
  try_catch
    (data <- AuthApi.getExpertRequests http ;;
     for_of data (check_request render http))
    (fun _ => ret tt).

Definition openChat (http : Http) (rid : string) : Task Dashboard unit :=
  try_catch
    (AuthApi.startChatSession http rid ;;
     AuthApi.markChatRead http rid)
    (fun _ => ret tt) ;;
  modify (setUnreadCounts (fun prev => <[rid := 0%Z]> prev)) ;;
  modify (setOpenChatId (Some rid)) ;;
  modify (setSelectedChat (Some rid)) ;;
  modify (setShowChat true).

Definition markMessagesAsRead (http : Http) (rid : string)
  : Task Dashboard unit :=
  try_catch
    (messages <- AuthApi.getChatMessages http rid ;;
     let expertMessages := sent_by expert messages in
     let currentExpertMessageCount := Z.of_nat (length expertMessages) in
     modify (setLastMessageCounts
               (fun prev => <[rid := currentExpertMessageCount]> prev)) ;;
     modify (setUnreadCounts (fun prev => <[rid := 0%Z]> prev)))
    (fun _ => ret tt).

Definition handleNewMessage (render : Dashboard) (rid : string)
    (st : Dashboard) : Dashboard :=
  if bool_decide (openChatId render = Some rid) then
    setUnreadCounts (fun prev => <[rid := 0%Z]> prev)
      (setLastMessageCounts
         (fun prev => <[rid := (Js.or_zero (prev !! rid) + 1)%Z]> prev) st)
  else
    setUnreadCounts
      (fun prev => <[rid := (Js.or_zero (prev !! rid) + 1)%Z]> prev) st.

End ExpertConsultation.

(** ** The server side of the chat core

    The backend that answers the calls above is not part of the frontend
    sources.  Its Read-Cursor Tracker is modelled here from sections 4.2 and
    5 of the specification. *)

#[global] Instance Sender_countable : Countable Sender.
Proof.
  refine (inj_countable' (fun s => match s with user => false | expert => true end)
                         (fun b => if b then expert else user) _).
  intros []; reflexivity.
Defined.

Module SpecModel.

(** Modelled from the spec: the Read-Cursor Tracker's state, one marker per
    (request, reader role) pair; a pair without entry is the "nothing-read"
    sentinel.  Markers are message positions in creation order. *)
Abbreviation Cursors := (gmap (string * Sender) nat).

(** Modelled from the spec: [getCursor(request_id, role)], the marker or
    the "nothing-read" sentinel ([None]). *)
Definition getCursor (q : string) (r : Sender) (t : Cursors) : option nat :=
  t !! (q, r).

(** Modelled from the spec: [markRead(request_id, role, at)] of the
    Read-Cursor Tracker, which is missing from the sources: "advances the
    cursor to at least [at]; if the existing cursor is already >= [at],
    this is a no-op", a compare-and-set to [max(old, new)]. *)
Definition markRead (q : string) (r : Sender) (marker : nat) (t : Cursors)
  : Cursors :=
  match t !! (q, r) with
  | Some cursor =>
      if (marker <=? cursor)%nat then t else <[(q, r) := marker]> t
  | None => <[(q, r) := marker]> t
  end.

(** One [markRead] call. *)
Record MarkCall : Type := mkMarkCall {
  call_request : string;
  call_role : Sender;
  call_marker : nat
}.

(** A sequence of [markRead] calls, applied in the order given. *)
Definition markReads (calls : list MarkCall) (t : Cursors) : Cursors :=
  foldl (fun t c => markRead (call_request c) (call_role c) (call_marker c) t)
        t calls.

(** The markers of the calls made on the pair [(q, r)]. *)
Definition markers_of (q : string) (r : Sender) (calls : list MarkCall)
  : list nat :=
  call_marker <$>
    filter (fun c => call_request c = q ∧ call_role c = r) calls.

(** The cursor that results from an earlier cursor and a list of markers:
    their maximum, and the sentinel when there is neither. *)
Definition cursor_after (before : option nat) (markers : list nat)
  : option nat :=
  match before, markers with
  | None, [] => None
  | None, _ :: _ => Some (max_list markers)
  | Some c, _ => Some (c `max` max_list markers)
  end.

End SpecModel.

(** ** The polling loop and the words of the claims *)

(** [setInterval(tick, ms)] until [clearInterval]: the callback runs once per
    timer event, each time against the backend as it is then.  A rejection
    that escaped a callback would end the run here. *)
Definition interval {S : Type} (tick : Http -> Task S unit)
    (backends : list Http) : Task S unit :=
  for_of backends tick.

(** The messages of [latest] that the viewer [who] has not seen in [prev]:
    sent by the other role, with an id that [prev] does not hold. *)
Definition newly_observed (who : Sender) (prev latest : list ChatMessage)
  : list ChatMessage :=
  filter (fun m => sender m = counterpart who ∧ id m ∉ (id <$> prev)) latest.

(** ** Concrete backends and states used in the examples below *)

(** A message of conversation "r1" with text "hi". *)
Definition example_message (i : string) (who : Sender) : ChatMessage :=
  mkChatMessage i "r1" who [104%N; 105%N] "2025-01-01T10:00:00Z"
    None None None None.

(** Every call is rejected. *)
Definition backend_down : Http :=
  mkHttp (Rejected TransientBackendError) (Rejected TransientBackendError)
    (Rejected TransientBackendError)
    (fun _ => Rejected TransientBackendError)
    (fun _ _ => Rejected TransientBackendError)
    (fun _ _ _ _ => Rejected TransientBackendError)
    (fun _ => Rejected TransientBackendError)
    (fun _ => Rejected TransientBackendError).

(** The unread-count endpoint answers [{ "unread": -1 }]. *)
Definition negative_unread_http : Http :=
  mkHttp (Resolved []) (Resolved []) (Resolved [])
    (fun _ => Resolved tt)
    (fun _ _ => Resolved [])
    (fun _ _ _ _ => Rejected TransientBackendError)
    (fun _ => Resolved tt)
    (fun _ => Resolved (Js.VObject [("unread", Js.VNumber (-1))])).

(** Conversation "r1" holds three messages of the viewer's counterpart; the
    unread-count and mark-read endpoints are unavailable. *)
Definition three_messages (from : Sender) : list ChatMessage :=
  [example_message "m1" from; example_message "m2" from;
   example_message "m3" from].

Definition unread_unavailable_http : Http :=
  mkHttp (Resolved ["r1"]) (Resolved []) (Resolved ["r1"])
    (fun _ => Resolved tt)
    (fun who _ => Resolved (three_messages (counterpart who)))
    (fun _ _ _ _ => Rejected TransientBackendError)
    (fun _ => Rejected TransientBackendError)
    (fun _ => Rejected TransientBackendError).

(** Conversation "r1" holds two messages of the viewer's counterpart, and the
    server reports them as unread. *)
Definition two_messages (from : Sender) : list ChatMessage :=
  [example_message "m1" from; example_message "m2" from].

Definition two_unread_http : Http :=
  mkHttp (Resolved ["r1"]) (Resolved []) (Resolved ["r1"])
    (fun _ => Resolved tt)
    (fun who _ => Resolved (two_messages (counterpart who)))
    (fun who _ _ _ => Resolved (example_message "m3" who))
    (fun _ => Resolved tt)
    (fun _ => Resolved (Js.VObject [("unread", Js.VNumber 2)])).

(** A dashboard that shows [unread] unread messages for "r1" over a baseline
    of [baseline] counterpart messages, with no chat open. *)
Definition dashboard_with (unread baseline : Z) : Dashboard :=
  mkDashboard {["r1" := unread]} {["r1" := baseline]} None false None [].

(** A dashboard whose chat "r1" is open. *)
Definition dashboard_open_r1 : Dashboard :=
  mkDashboard {["r1" := 0%Z]} ∅ (Some "r1") true (Some "r1") [].

(** A mounted panel of conversation "r1" with [text] in the compose box. *)
Definition panel_with (shown : list ChatMessage) (text : Js.Text)
  : PanelState :=
  mkPanelState shown text false None false 0 [] [].

Definition props_r1 : PanelProps := mkPanelProps "r1" true.

(** ** The message list of the chat panels

    Both panels print the messages under date headings.  The calendar day of
    a timestamp is [new Date(timestamp).toDateString()], a function of the
    browser that the definitions take as parameter. *)

(** What the farmer's panel prints for the message list: a date separator
    carrying a timestamp, or the bubble of a message. *)
Inductive Row : Type :=
| DateSeparator (timestamp : string)
| Bubble (m : ChatMessage).

Module UserChatPanelList.
Section WithDates.
Variable toDateString : string -> string.

(** The fragment printed for message [m] at index [idx] of [messages]:
    [prev = messages[idx - 1]], which is [undefined] at index 0, and
    [showDate = !prev || day(prev) !== day(m)]. *)
Definition message_rows (messages : list ChatMessage) (idx : nat)
    (m : ChatMessage) : list Row :=
  let prev := match idx with O => None | S before => messages !! before end in
  let showDate :=
    match prev with
    | None => true
    | Some p =>
        negb (bool_decide (toDateString (timestamp p)
                           = toDateString (timestamp m)))
    end in
  (if showDate then [DateSeparator (timestamp m)] else []) ++ [Bubble m].

(** [messages.map((m, idx) => ..)], the fragments in order. *)
Definition rows (messages : list ChatMessage) : list Row :=
  concat (imap (message_rows messages) messages).

(** The same rows by recursion on the list, [prev] being the message before
    the ones still to print. *)
Fixpoint rows_after (prev : option ChatMessage) (messages : list ChatMessage)
  : list Row :=
  match messages with
  | [] => []
  | m :: rest =>
      match prev with
      | None => [DateSeparator (timestamp m)]
      | Some p =>
          if bool_decide (toDateString (timestamp p)
                          = toDateString (timestamp m))
          then [] else [DateSeparator (timestamp m)]
      end ++ Bubble m :: rows_after (Some m) rest
  end.

(** The days of the date separators among the rows, top to bottom. *)
Fixpoint separator_days (printed : list Row) : list string :=
  match printed with
  | [] => []
  | DateSeparator ts :: rest => toDateString ts :: separator_days rest
  | Bubble _ :: rest => separator_days rest
  end.

(** What a reader of the rows sees: every bubble with the day of the last
    separator above it, [current] being the day read before the rows. *)
Fixpoint read_rows (current : option string) (printed : list Row)
  : list (option string * ChatMessage) :=
  match printed with
  | [] => []
  | DateSeparator ts :: rest => read_rows (Some (toDateString ts)) rest
  | Bubble m :: rest => (current, m) :: read_rows current rest
  end.

End WithDates.
End UserChatPanelList.

Module ExpertChatPanelList.

(** [groups[date]], with no messages where the object has no such key. *)
Fixpoint group_of (date : string) (groups : list (string * list ChatMessage))
  : list ChatMessage :=
  match groups with
  | [] => []
  | (key, dateMessages) :: rest =>
      if bool_decide (key = date) then dateMessages else group_of date rest
  end.

Section WithDates.
Variable toDateString : string -> string.

(** [if (!groups[date]) groups[date] = []; groups[date].push(message)] on an
    object whose keys are calendar days: the keys keep the order in which
    they were added, which is the order [Object.entries] lists them in. *)
Fixpoint push_message (date : string) (m : ChatMessage)
    (groups : list (string * list ChatMessage))
  : list (string * list ChatMessage) :=
  match groups with
  | [] => [(date, [m])]
  | (key, dateMessages) :: rest =>
      if bool_decide (key = date) then (key, dateMessages ++ [m]) :: rest
      else (key, dateMessages) :: push_message date m rest
  end.

(** [messages.reduce((groups, message) => .., {})] *)
Definition groupedMessages (messages : list ChatMessage)
  : list (string * list ChatMessage) :=
  foldl (fun groups m => push_message (toDateString (timestamp m)) m groups)
        [] messages.

(** [dateMessages[0].timestamp], the timestamp handed to [formatDate] for the
    heading of a group; [None] stands for the read of [undefined]. *)
Definition heading_timestamp (dateMessages : list ChatMessage)
  : option string :=
  timestamp <$> head dateMessages.

End WithDates.
End ExpertChatPanelList.

(** ** [lib/auth-api.ts]: the API base, the token and the interceptors *)

Module AuthApiConfig.

(** The code units of an ASCII literal. *)
Definition text_of (s : string) : Js.Text :=
  (fun a => Ascii.N_of_ascii a) <$> String.list_ascii_of_string s.

(** [s.split(',')[0]]: the code units before the first comma. *)
Fixpoint first_field (s : Js.Text) : Js.Text :=
  match s with
  | [] => []
  | c :: rest => if (c =? 44)%N then [] else c :: first_field rest
  end.

Definition default_API_BASE : Js.Text := text_of "http://localhost:8000".

(** The API base resolved when the module is loaded, [VITE_API_BASE] being
    the build-time variable, [None] when it is not defined. *)
Definition API_BASE (VITE_API_BASE : option Js.Text) : Js.Text :=
  let rawApiBase :=
    match VITE_API_BASE with
    | Some v => if Js.truthy v then v else []
    | None => []
    end in
  if Js.truthy rawApiBase && (0 <? length rawApiBase)%nat then
    let first := Js.trim (first_field rawApiBase) in
    if (0 <? length first)%nat then first else default_API_BASE
  else default_API_BASE.

End AuthApiConfig.

(** The module variable [authToken] of [auth-api.ts] and the browser's
    [localStorage]. *)
Record Browser : Type := mkBrowser {
  authToken : option string;
  localStorage : gmap string string
}.

(** The part of an axios request config that the interceptors touch:
    [config.headers], which a caller may leave undefined. *)
Record RequestConfig : Type := mkRequestConfig {
  headers : option (gmap string string)
}.

(** What happens to the tokens of a browser session. *)
Inductive TokenEvent : Type :=
| SetAuthToken (token : string)
| ClearAuthToken
| ApiError (status : option Z)
| ExpertLogin (access_token expert_user : string)
| ExpertLogout
| ExpertApiError (status : option Z).

Module AuthApiToken.

(** [let authToken = localStorage.getItem('authToken')] at module load. *)
Definition load (storage : gmap string string) : Browser :=
  mkBrowser (storage !! "authToken") storage.

Definition setAuthToken (token : string) (b : Browser) : Browser :=
  mkBrowser (Some token) (<["authToken" := token]> (localStorage b)).

Definition clearAuthToken (b : Browser) : Browser :=
  mkBrowser None (delete "authToken" (localStorage b)).

Definition getAuthToken (b : Browser) : option string := authToken b.

(** Truthiness of a string read from storage or from a header. *)
Definition truthy (v : option string) : bool :=
  match v with
  | Some s => negb (bool_decide (s = ""))
  | None => false
  end.

(** [config.headers && config.headers.Authorization] *)
Definition authorization (config : RequestConfig) : option string :=
  headers config ≫= fun h => h !! "Authorization".

(** The request interceptor of [api].  [token_read] is the outcome of
    [localStorage.getItem('authToken')], which the interceptor guards with
    [try]/[catch]: on a throw the config goes out as it came. *)
Definition request_interceptor (token_read : Result (option string))
    (config : RequestConfig) : RequestConfig :=
  match token_read with
  | Resolved token =>
      if truthy token && negb (truthy (authorization config)) then
        mkRequestConfig
          (Some (<["Authorization" := String.append "Bearer " (default "" token)]>
                   (default ∅ (headers config))))
      else config
  | Rejected _ => config
  end.

(** The rejection handler of the response interceptor of [api]:
    [error?.response?.status === 401] clears the token; the error is
    rejected again in every case. *)
Definition response_error_interceptor (status : option Z) (b : Browser)
  : Browser :=
  if bool_decide (status = Some 401%Z) then clearAuthToken b else b.

(** [expertToken ? { Authorization: `Bearer ${expertToken}` } : undefined] *)
Definition expert_headers (storage : gmap string string)
  : option (gmap string string) :=
  if truthy (storage !! "expert_token") then
    Some {["Authorization" :=
             String.append "Bearer " (default "" (storage !! "expert_token"))]}
  else None.

(** The config that the function of [auth-api.ts] issuing call [c] hands to
    [api]: none for the farmer's calls, the multipart content type for the
    two sends, and the expert's token, when one is stored, for the expert's
    calls and for [markChatRead] and [getUnreadCount]. *)
Definition config_of (storage : gmap string string) (c : Call)
  : RequestConfig :=
  match c with
  | GetExpertRequests | PostStart _ | GetMessages user _ =>
      mkRequestConfig None
  | PostMessage user _ _ _ =>
      mkRequestConfig (Some {["Content-Type" := "multipart/form-data"]})
  | PostMessage expert _ _ _ =>
      mkRequestConfig
        (Some (default ∅ (expert_headers storage)
               ∪ {["Content-Type" := "multipart/form-data"]}))
  | GetMessages expert _ | PostRead _ | GetUnreadCount _ =>
      mkRequestConfig (expert_headers storage)
  | GetPendingRequests | GetMyRequests => mkRequestConfig None
  end.

End AuthApiToken.

Module ExpertAuthContext.

(** The request interceptor of [expertAPI]: the expert's token, when one is
    stored, is written over whatever the config holds. *)
Definition request_interceptor (storage : gmap string string)
    (config : RequestConfig) : RequestConfig :=
  if AuthApiToken.truthy (storage !! "expert_token") then
    mkRequestConfig
      (Some (<["Authorization" :=
                 String.append "Bearer "
                   (default "" (storage !! "expert_token"))]>
               (default ∅ (headers config))))
  else config.

(** The rejection handler of the response interceptor of [expertAPI]. *)
Definition response_error_interceptor (status : option Z) (b : Browser)
  : Browser :=
  if bool_decide (status = Some 401%Z) then
    mkBrowser (authToken b)
      (delete "expert_user" (delete "expert_token" (localStorage b)))
  else b.

(** [login] of the provider, once [expertLogin] has answered. *)
Definition login (access_token expert_user : string) (b : Browser) : Browser :=
  mkBrowser (authToken b)
    (<["expert_user" := expert_user]>
       (<["expert_token" := access_token]> (localStorage b))).

Definition logout (b : Browser) : Browser :=
  mkBrowser (authToken b)
    (delete "expert_user" (delete "expert_token" (localStorage b))).

End ExpertAuthContext.

(** One event of a session, and a run of them. *)
Definition token_step (b : Browser) (ev : TokenEvent) : Browser :=
  match ev with
  | SetAuthToken token => AuthApiToken.setAuthToken token b
  | ClearAuthToken => AuthApiToken.clearAuthToken b
  | ApiError status => AuthApiToken.response_error_interceptor status b
  | ExpertLogin access_token expert_user =>
      ExpertAuthContext.login access_token expert_user b
  | ExpertLogout => ExpertAuthContext.logout b
  | ExpertApiError status =>
      ExpertAuthContext.response_error_interceptor status b
  end.

Definition token_run (events : list TokenEvent) (b : Browser) : Browser :=
  foldl token_step b events.

(** The headers with which call [c] leaves the browser: the config of its
    function, passed through the request interceptor of the axios instance
    it uses ([expertAPI] for the two dashboard lists, [api] for the rest). *)
Definition outgoing (storage : gmap string string) (c : Call)
  : RequestConfig :=
  match c with
  | GetPendingRequests | GetMyRequests =>
      ExpertAuthContext.request_interceptor storage
        (AuthApiToken.config_of storage c)
  | _ =>
      AuthApiToken.request_interceptor (Resolved (storage !! "authToken"))
        (AuthApiToken.config_of storage c)
  end.

(** ** Loading a chat panel and a page *)

(** The body [response.data] of an answer of [GET /expert/chat/:id]: [null]
    (or [undefined]), or any other value, of which the panels read the
    [messages] field only: the message list, or nothing when the field is
    missing or falsy. *)
Inductive SessionBody : Type :=
| null_body
| session_body (listed : option (list ChatMessage)).

(** The answers of [GET /expert/chat/:id] to the farmer and to the expert. *)
Record SessionHttp : Type := mkSessionHttp {
  get_session : Sender -> string -> Result SessionBody
}.

(** [getChatSession] / [getExpertChatSession]; the session request is not
    among the recorded calls. *)
Definition fetch_session {S : Type} (sessions : SessionHttp) (who : Sender)
    (rid : string) : Task S SessionBody :=
  fun s => (s, get_session sessions who rid).

(** [session.messages || []]: reading the field of [null] throws. *)
Definition messages_or_empty {S : Type} (session : SessionBody)
  : Task S (list ChatMessage) :=
  match session with
  | null_body => fun s => (s, Rejected TypeError)
  | session_body listed => ret (default [] listed)
  end.

(** The expert's panel also keeps a [loading] flag. *)
Record ExpertPanelState : Type := mkExpertPanelState {
  expert_panel : PanelState;
  loading : bool
}.

#[global] Instance ExpertPanelState_network : Network ExpertPanelState :=
  fun c st => mkExpertPanelState (record_call c (expert_panel st)) (loading st).

Definition on_panel (f : PanelState -> PanelState) (st : ExpertPanelState)
  : ExpertPanelState :=
  mkExpertPanelState (f (expert_panel st)) (loading st).

Definition setLoading (b : bool) (st : ExpertPanelState) : ExpertPanelState :=
  mkExpertPanelState (expert_panel st) b.

Module UserChatPanelInit.

(** [init] of the effect that also starts the polling. *)
Definition init (props : PanelProps) (http : Http) (sessions : SessionHttp)
  : Task PanelState unit :=
  try_catch
    (session <- fetch_session sessions user (requestId props) ;;
     shown <- messages_or_empty session ;;
     modify (setMessages (fun _ => shown)))
    (fun _ =>
       try_catch
         (msgs <- AuthApi.getChatMessages http (requestId props) ;;
          modify (setMessages (fun _ => msgs)))
         (fun _ => ret tt)).

End UserChatPanelInit.

Module ExpertChatPanelInit.

(** [fetchChat] *)
Definition fetchChat (props : PanelProps) (http : Http)
    (sessions : SessionHttp) : Task ExpertPanelState unit :=
  finally
    (try_catch
       (session <- fetch_session sessions expert (requestId props) ;;
        shown <- messages_or_empty session ;;
        modify (on_panel (setMessages (fun _ => shown))))
       (fun _ =>
          try_catch
            (messages <- AuthApi.getExpertChatMessages http (requestId props) ;;
             modify (on_panel (setMessages (fun _ => messages))))
            (fun _ => modify (on_panel (setMessages (fun _ => []))))))
    (setLoading false).

End ExpertChatPanelInit.

(** [for (const x of xs) { acc = body x acc }] with a local accumulator. *)
Fixpoint for_of_with {S X A : Type} (xs : list X) (acc : A)
    (body : X -> A -> Task S A) : Task S A :=
  match xs with
  | [] => ret acc
  | x :: rest => bind (body x acc) (fun acc' => for_of_with rest acc' body)
  end.

(** The farmer's page: the chat state, the requests listed and the
    [loading] flag. *)
Record ConsultationPage : Type := mkConsultationPage {
  page_chat : Dashboard;
  page_requests : list string;
  page_loading : bool
}.

#[global] Instance ConsultationPage_network : Network ConsultationPage :=
  fun c st =>
    mkConsultationPage (record_call c (page_chat st)) (page_requests st)
      (page_loading st).

Definition on_chat (f : Dashboard -> Dashboard) (st : ConsultationPage)
  : ConsultationPage :=
  mkConsultationPage (f (page_chat st)) (page_requests st) (page_loading st).

Definition setRequests (data : list string) (st : ConsultationPage)
  : ConsultationPage :=
  mkConsultationPage (page_chat st) data (page_loading st).

Definition setPageLoading (b : bool) (st : ConsultationPage)
  : ConsultationPage :=
  mkConsultationPage (page_chat st) (page_requests st) b.

Module ExpertConsultationPage.

(** One round of the loop that fills [initialCounts]. *)
Definition count_request (http : Http) (rid : string)
    (initialCounts : gmap string Z) : Task ConsultationPage (gmap string Z) :=
  try_catch
    (messages <- AuthApi.getChatMessages http rid ;;
     let expertMessages := sent_by expert messages in
     ret (<[rid := Z.of_nat (length expertMessages)]> initialCounts))
    (fun _ => ret (<[rid := 0%Z]> initialCounts)).

(** [fetchRequests] of the mount effect. *)
Definition fetchRequests (http : Http) : Task ConsultationPage unit :=
  finally
    (try_catch
       (data <- AuthApi.getExpertRequests http ;;
        modify (setRequests data) ;;
        initialCounts <- for_of_with data ∅ (count_request http) ;;
        modify (on_chat (setLastMessageCounts (fun _ => initialCounts))))
       (fun _ => ret tt))
    (setPageLoading false).

(** One run of the mount effect of the panel as the page wires it:
    [setOpenChatId(requestId)], then [onMarkAsRead(requestId)]. *)
Definition panel_mounted (http : Http) (rid : string) : Task Dashboard unit :=
  modify (setOpenChatId (Some rid)) ;;
  ExpertConsultation.markMessagesAsRead http rid.

(** [onClose] of the panel, then the cleanup of its mount effect. *)
Definition panel_closed : Task Dashboard unit :=
  modify (setShowChat false) ;;
  modify (setOpenChatId None) ;;
  modify (setOpenChatId None).

End ExpertConsultationPage.

Module ExpertDashboardPage.

(** One run of the mount effect of the panel as the dashboard wires it. *)
Definition panel_mounted (http : Http) (rid : string) : Task Dashboard unit :=
  modify (setOpenChatId (Some rid)) ;;
  ExpertDashboard.markMessagesAsRead http rid.

(** [onClose], which is [handleCloseChat] of the render that shows the
    panel, then the cleanup of the mount effect. *)
Definition panel_closed (render : Dashboard) (http : Http)
  : Task Dashboard unit :=
  ExpertDashboard.handleCloseChat render http ;;
  modify (setOpenChatId None).

End ExpertDashboardPage.

(** ** Concrete inputs of the further examples *)

(** A message of conversation "r1" with the timestamp [ts]. *)
Definition dated_message (i ts : string) (who : Sender) : ChatMessage :=
  mkChatMessage i "r1" who [104%N; 105%N] ts None None None None.

(** Two days of a conversation, the timestamps being the days. *)
Definition two_days : list (string * list ChatMessage) :=
  [("2025-01-01", [dated_message "m1" "2025-01-01" user;
                   dated_message "m2" "2025-01-01" expert]);
   ("2025-01-02", [dated_message "m3" "2025-01-02" user])].

(** A storage with a farmer's and an expert's token. *)
Definition both_tokens : gmap string string :=
  {["authToken" := "farmer-jwt"; "expert_token" := "expert-jwt"]}.

(** Unfold a handler down to the responses of the backend. *)
Ltac run_task :=
  unfold AuthApi.getUnreadCount, AuthApi.getExpertChatMessages,
    AuthApi.getChatMessages, AuthApi.getExpertRequests, AuthApi.markChatRead,
    AuthApi.startChatSession, promise_all2, try_catch, bind, modify, ret,
    request;
  simpl.

(** * Properties *)

(** ** The notification badge *)

(** C10. For every integer count the badge renders nothing when the count is
    0, shows the exact count from 1 to 99 and the capped label "99+" above
    99; whatever the count, a number it shows is at most 99.  The chat icon
    hands its [unreadCount] to the badge, 0 when the prop is absent. *)
Theorem notification_badge_caps_at_99 (count : Z) :
  (count = 0 -> NotificationBadge.render count = None)%Z /\
  (1 <= count <= 99 ->
   NotificationBadge.render count = Some (LabelNumber count))%Z /\
  (99 < count -> NotificationBadge.render count = Some (LabelText "99+"))%Z /\
  (forall n, NotificationBadge.render count = Some (LabelNumber n) ->
             n <= 99)%Z /\
  ChatIcon.badge (Some count) = NotificationBadge.render count /\
  ChatIcon.badge None = None.
Proof.
  unfold ChatIcon.badge, NotificationBadge.render; simpl.
  repeat split.
  - intros ->. reflexivity.
  - intros [Hlo Hhi].
    destruct (Z.eqb_spec count 0) as [->|_]; [lia|].
    destruct (Z.ltb_spec 99 count); [lia|reflexivity].
  - intros Hbig.
    destruct (Z.eqb_spec count 0) as [->|_]; [lia|].
    destruct (Z.ltb_spec 99 count); [reflexivity|lia].
  - intros n.
    destruct (Z.eqb_spec count 0) as [->|_]; [discriminate|].
    destruct (Z.ltb_spec 99 count); [discriminate|].
    intros [= <-]. assumption.
Qed.

Lemma notification_badge_caps_at_99_witness :
  NotificationBadge.render 0 = None /\
  NotificationBadge.render 57 = Some (LabelNumber 57) /\
  NotificationBadge.render 100 = Some (LabelText "99+").
Proof.
  split; [|split].
  - apply (proj1 (notification_badge_caps_at_99 0)). reflexivity.
  - apply (proj1 (proj2 (notification_badge_caps_at_99 57))). lia.
  - apply (proj1 (proj2 (proj2 (notification_badge_caps_at_99 100)))). lia.
Defined.

(** ** [getUnreadCount] *)

Section UnreadCount.
Context {S : Type} `{Network S}.

Lemma getUnreadCount_run (http : Http) (rid : string) (st : S) :
  AuthApi.getUnreadCount http rid st =
    (record_call (GetUnreadCount rid) st,
     match get_unread_count http rid with
     | Resolved data => Resolved (AuthApi.unread_of_payload data)
     | Rejected e => Rejected e
     end).
Proof.
  unfold AuthApi.getUnreadCount, bind, request, ret.
  destruct (get_unread_count http rid); reflexivity.
Qed.

Lemma unread_of_payload_number (data : Js.Value) (u : Z) :
  Js.optional_unread data = Js.VNumber u ->
  AuthApi.unread_of_payload data = u.
Proof. unfold AuthApi.unread_of_payload. intros ->. reflexivity. Qed.

Lemma unread_of_payload_other (data : Js.Value) :
  (forall u, Js.optional_unread data <> Js.VNumber u) ->
  AuthApi.unread_of_payload data = 0%Z.
Proof.
  unfold AuthApi.unread_of_payload. intros Hnot.
  destruct (Js.optional_unread data) as [| | |u| | |]; try reflexivity.
  destruct (Hnot u). reflexivity.
Qed.

End UnreadCount.

(** C5, as stated, fails: on the response [{ "unread": -1 }] the function
    resolves to the payload's number, which is negative. *)
Lemma getUnreadCount_negative_payload :
  snd (AuthApi.getUnreadCount negative_unread_http "r1" initial_render)
    = Resolved (-1)%Z /\
  ~ (forall (http : Http) (rid : string) (st : Dashboard) (n : Z),
        snd (AuthApi.getUnreadCount http rid st) = Resolved n -> (0 <= n)%Z).
Proof.
  split; [reflexivity|].
  intros Hclaim.
  specialize (Hclaim negative_unread_http "r1" initial_render (-1)%Z eq_refl).
  lia.
Qed.

(** C5, amended. When the unread-count request succeeds, [getUnreadCount]
    resolves to the payload's [unread] field when that field is a number and
    to 0 otherwise; the result is not clamped, so it is non-negative
    whenever the server does not report a negative number. *)
Theorem getUnreadCount_returns_unread_field
    (http : Http) (rid : string) (st : Dashboard) (data : Js.Value) :
  get_unread_count http rid = Resolved data ->
  exists n : Z,
    snd (AuthApi.getUnreadCount http rid st) = Resolved n /\
    (forall u, Js.optional_unread data = Js.VNumber u -> n = u) /\
    ((forall u, Js.optional_unread data <> Js.VNumber u) -> n = 0%Z) /\
    ((forall u, Js.optional_unread data = Js.VNumber u -> (0 <= u)%Z) ->
     (0 <= n)%Z).
Proof.
  intros Hresp. exists (AuthApi.unread_of_payload data).
  rewrite getUnreadCount_run, Hresp. simpl.
  split; [reflexivity|].
  split; [intros u Hu; apply unread_of_payload_number, Hu|].
  split; [apply unread_of_payload_other|].
  intros Hnonneg. unfold AuthApi.unread_of_payload.
  destruct (Js.optional_unread data) as [| | |u| | |] eqn:Hfield; try lia.
  apply Hnonneg. reflexivity.
Qed.

Lemma getUnreadCount_returns_unread_field_witness :
  exists n : Z,
    snd (AuthApi.getUnreadCount negative_unread_http "r1" initial_render)
      = Resolved n /\
    n = (-1)%Z.
Proof.
  destruct (getUnreadCount_returns_unread_field negative_unread_http "r1"
              initial_render
              (Js.VObject [("unread", Js.VNumber (-1))]) eq_refl)
    as (n & Hrun & Hnum & _).
  exists n. split; [exact Hrun|].
  apply Hnum. reflexivity.
Defined.

(** ** The send handlers of the chat panels *)

Section SendHandler.
Variable who : Sender.
Variable failure_text : string.
Variables (props : PanelProps) (http : Http).

Lemma send_message_run (text : Js.Text) (upload : option File)
    (st : PanelState) :
  ChatPanel.send_message who http (requestId props) text upload st =
    (record_call (PostMessage who (requestId props) text upload) st,
     post_message http who (requestId props) text upload).
Proof. destruct who; reflexivity. Qed.

Lemma handleSend_blocked (st : PanelState) :
  ChatPanel.nothing_to_send st = true ->
  ChatPanel.handleSend who failure_text props http st = (st, Resolved tt).
Proof. unfold ChatPanel.handleSend. intros ->. reflexivity. Qed.

Lemma handleSend_rejected (st : PanelState) (e : Error) :
  ChatPanel.nothing_to_send st = false ->
  post_message http who (requestId props) (newMessage st) (file st)
    = Rejected e ->
  ChatPanel.handleSend who failure_text props http st =
    (mkPanelState (messages st) (newMessage st) false (file st)
       (showEmoji st) (notifications st) (alerts st ++ [failure_text])
       (panel_calls st
          ++ [PostMessage who (requestId props) (newMessage st) (file st)]),
     Resolved tt).
Proof.
  unfold ChatPanel.handleSend. intros -> Hout.
  unfold bind, finally, try_catch, modify. simpl.
  rewrite send_message_run. simpl. rewrite Hout. reflexivity.
Qed.

Lemma handleSend_resolved (st : PanelState) (msg : ChatMessage) :
  ChatPanel.nothing_to_send st = false ->
  post_message http who (requestId props) (newMessage st) (file st)
    = Resolved msg ->
  ChatPanel.handleSend who failure_text props http st =
    (mkPanelState (messages st ++ [msg]) [] false None false
       (notifications st) (alerts st)
       (panel_calls st
          ++ [PostMessage who (requestId props) (newMessage st) (file st)]),
     Resolved tt).
Proof.
  unfold ChatPanel.handleSend. intros -> Hout.
  unfold bind, finally, try_catch, modify. simpl.
  rewrite send_message_run. simpl. rewrite Hout. reflexivity.
Qed.

(** A failed send leaves the compose box and the message list alone. *)
Lemma handleSend_failure_keeps_input (st : PanelState) (e : Error) :
  post_message http who (requestId props) (newMessage st) (file st)
    = Rejected e ->
  let st' := fst (ChatPanel.handleSend who failure_text props http st) in
  newMessage st' = newMessage st /\ file st' = file st /\
  messages st' = messages st.
Proof.
  intros Hout.
  destruct (ChatPanel.nothing_to_send st) eqn:Hguard.
  - rewrite handleSend_blocked by assumption. simpl. auto.
  - rewrite (handleSend_rejected st e) by assumption. simpl. auto.
Qed.

(** The compose box or the message list changes only on a send that the
    backend accepted. *)
Lemma handleSend_change_needs_success (st : PanelState) :
  let st' := fst (ChatPanel.handleSend who failure_text props http st) in
  newMessage st' <> newMessage st \/ file st' <> file st \/
    messages st' <> messages st ->
  exists msg,
    post_message http who (requestId props) (newMessage st) (file st)
      = Resolved msg.
Proof.
  intros st' Hchanged. subst st'.
  destruct (post_message http who (requestId props) (newMessage st) (file st))
    as [msg|e] eqn:Hout; [eauto|].
  destruct (handleSend_failure_keeps_input st e Hout) as (Hn & Hf & Hm).
  destruct Hchanged as [Hc|[Hc|Hc]]; contradiction.
Qed.

End SendHandler.



Lemma truthy_trim_iff (text : Js.Text) :
  Js.truthy (Js.and_then text (Js.trim text)) = true <-> Js.trim text <> [].
Proof.
  unfold Js.and_then. destruct text as [|c text]; simpl.
  - split; [discriminate|intros Hne; destruct Hne; reflexivity].
  - destruct (Js.trim (c :: text)); simpl.
    + split; [discriminate|intros Hne; destruct Hne; reflexivity].
    + split; [discriminate|reflexivity].
Qed.

(** The guard lets through exactly the attempts that carry a text that is
    not blank or a file, while no send is in flight. *)
Lemma nothing_to_send_false_iff (st : PanelState) :
  ChatPanel.nothing_to_send st = false <->
  (Js.trim (newMessage st) <> [] \/ file st <> None) /\ sending st = false.
Proof.
  unfold ChatPanel.nothing_to_send.
  pose proof (truthy_trim_iff (newMessage st)) as Htrim.
  destruct (Js.truthy _); destruct (file st) as [f|]; destruct (sending st);
    simpl; split; try discriminate; try reflexivity;
    try (intros [_ ?]; discriminate).
  - intros _. split; [left; apply Htrim|]; reflexivity.
  - intros _. split; [left; apply Htrim|]; reflexivity.
  - intros _. split; [right; discriminate|reflexivity].
  - intros [[Hne|Hne] _]; [|destruct Hne; reflexivity].
    apply Htrim in Hne. discriminate.
Qed.

(** C7. In either chat panel ([who] is the viewer's role: [user] for
    [UserChatPanel.handleSend], [expert] for
    [ExpertChatPanel.handleSendMessage]), a send that fails leaves
    [newMessage], the selected file and the local message list as they were,
    and a failure that reached the backend raises the alert and ends the
    sending state.  Whatever the backend answers, these three change only
    when the send succeeded. *)
Theorem failed_send_keeps_compose_input
    (who : Sender) (failure_text : string) (props : PanelProps) (http : Http)
    (st : PanelState) (e : Error) :
  post_message http who (requestId props) (newMessage st) (file st)
    = Rejected e ->
  let st' := fst (ChatPanel.handleSend who failure_text props http st) in
  newMessage st' = newMessage st /\
  file st' = file st /\
  messages st' = messages st /\
  (ChatPanel.nothing_to_send st = false ->
   alerts st' = alerts st ++ [failure_text] /\ sending st' = false) /\
  (forall other : Http,
     let st'' := fst (ChatPanel.handleSend who failure_text props other st) in
     newMessage st'' <> newMessage st \/ file st'' <> file st \/
       messages st'' <> messages st ->
     exists msg,
       post_message other who (requestId props) (newMessage st) (file st)
         = Resolved msg).
Proof.
  intros Hout st'. subst st'.
  destruct (handleSend_failure_keeps_input who failure_text props http st e
              Hout) as (Hn & Hf & Hm).
  split; [exact Hn|]. split; [exact Hf|]. split; [exact Hm|].
  split.
  - intros Hguard.
    rewrite (handleSend_rejected who failure_text props http st e Hguard Hout).
    simpl. auto.
  - intros other. apply handleSend_change_needs_success.
Qed.

Lemma failed_send_keeps_compose_input_witness :
  newMessage (fst (UserChatPanel.handleSend props_r1 backend_down
                     (panel_with [] [104%N; 105%N])))
    = [104%N; 105%N] /\
  alerts (fst (UserChatPanel.handleSend props_r1 backend_down
                 (panel_with [] [104%N; 105%N])))
    = ["Failed to send message"].
Proof.
  pose proof (failed_send_keeps_compose_input user "Failed to send message"
                props_r1 backend_down (panel_with [] [104%N; 105%N])
                TransientBackendError eq_refl) as (Hn & _ & _ & Halert & _).
  split.
  - exact Hn.
  - exact (proj1 (Halert eq_refl)).
Defined.




(** ** The polling callback of the chat panels *)

Lemma sent_by_app (who : Sender) (xs ys : list ChatMessage) :
  sent_by who (xs ++ ys) = sent_by who xs ++ sent_by who ys.
Proof. unfold sent_by. apply filter_app. Qed.

Section PanelTick.
Variable who : Sender.
Variables (props : PanelProps) (http : Http).

Lemma adopt_latest_messages (latest : list ChatMessage) (st : PanelState) :
  messages (ChatPanel.adopt_latest who props latest st) = latest.
Proof. unfold ChatPanel.adopt_latest. destruct (_ && _); reflexivity. Qed.

Lemma adopt_latest_notifications (latest : list ChatMessage)
    (st : PanelState) :
  notifications (ChatPanel.adopt_latest who props latest st) =
    (notifications st +
     if (length (sent_by (counterpart who) (messages st))
           <? length (sent_by (counterpart who) latest))%nat
        && onNewMessage_given props
     then 1 else 0)%nat.
Proof. unfold ChatPanel.adopt_latest. destruct (_ && _); simpl; lia. Qed.

Lemma fetch_messages_run (st : PanelState) :
  ChatPanel.fetch_messages who http (requestId props) st =
    (record_call (GetMessages who (requestId props)) st,
     get_messages http who (requestId props)).
Proof. destruct who; reflexivity. Qed.

Lemma interval_tick_run (st : PanelState) :
  ChatPanel.interval_tick who props http st =
    match get_messages http who (requestId props) with
    | Resolved latest =>
        (ChatPanel.adopt_latest who props latest
           (record_call (GetMessages who (requestId props)) st),
         Resolved tt)
    | Rejected _ =>
        (record_call (GetMessages who (requestId props)) st, Resolved tt)
    end.
Proof.
  unfold ChatPanel.interval_tick, try_catch, bind.
  rewrite fetch_messages_run.
  destruct (get_messages http who (requestId props)); reflexivity.
Qed.

Lemma interval_tick_never_rejects :
  never_rejects (ChatPanel.interval_tick who props http).
Proof.
  intros st. rewrite interval_tick_run.
  destruct (get_messages http who (requestId props)); reflexivity.
Qed.

End PanelTick.

(** C2, as stated, fails: the farmer's panel shows no message, two expert
    messages arrive before the next tick, and the tick invokes
    [onNewMessage] once for the two newly observed messages. *)
Lemma two_new_messages_one_notification :
  get_messages two_unread_http user "r1" = Resolved (two_messages expert) /\
  length (newly_observed user (messages (panel_with [] []))
            (two_messages expert)) = 2%nat /\
  notifications
    (fst (UserChatPanel.interval_tick props_r1 two_unread_http
            (panel_with [] []))) = 1%nat /\
  notifications
    (fst (UserChatPanel.interval_tick props_r1 two_unread_http
            (panel_with [] [])))
    <> length (newly_observed user (messages (panel_with [] []))
                 (two_messages expert)).
Proof. repeat split; vm_compute; congruence. Qed.

(** C2, amended. A poll tick of a chat panel whose fetch succeeds adopts the
    fetched list and invokes [onNewMessage] exactly once when that list holds
    more counterpart messages than the list shown before, however many more,
    and not at all otherwise.  When the fetched list extends the shown one,
    that is: once if at least one of the appended messages is from the
    counterpart, and never for messages already shown. *)
Theorem one_notification_per_growing_tick
    (who : Sender) (props : PanelProps) (http : Http) (st : PanelState)
    (latest : list ChatMessage) :
  get_messages http who (requestId props) = Resolved latest ->
  let st' := fst (ChatPanel.interval_tick who props http st) in
  messages st' = latest /\
  notifications st' =
    (notifications st +
     if (length (sent_by (counterpart who) (messages st))
           <? length (sent_by (counterpart who) latest))%nat
        && onNewMessage_given props
     then 1 else 0)%nat /\
  (forall new, latest = messages st ++ new ->
     notifications st' =
       (notifications st +
        match sent_by (counterpart who) new with
        | [] => 0
        | _ :: _ => if onNewMessage_given props then 1 else 0
        end)%nat).
Proof.
  intros Hfetch st'. subst st'.
  rewrite interval_tick_run, Hfetch. cbn [fst].
  rewrite adopt_latest_messages, adopt_latest_notifications. simpl.
  split; [reflexivity|]. split; [reflexivity|].
  intros new ->. f_equal.
  rewrite sent_by_app, length_app.
  destruct (sent_by (counterpart who) new) as [|m rest]; simpl.
  - rewrite Nat.add_0_r, Nat.ltb_irrefl. reflexivity.
  - destruct (Nat.ltb_spec (length (sent_by (counterpart who) (messages st)))
                (length (sent_by (counterpart who) (messages st))
                 + S (length rest))); [reflexivity|lia].
Qed.

Lemma one_notification_per_growing_tick_witness :
  notifications
    (fst (ChatPanel.interval_tick user props_r1 two_unread_http
            (panel_with [example_message "m1" expert] []))) = 1%nat.
Proof.
  exact (proj1 (proj2
    (one_notification_per_growing_tick user props_r1 two_unread_http
       (panel_with [example_message "m1" expert] [])
       (two_messages expert) eq_refl))).
Defined.

(** ** Tasks that swallow their rejections *)

Section TaskFacts.
Context {S : Type}.

Lemma try_catch_never_rejects (body : Task S unit)
    (handler : Error -> Task S unit) :
  (forall e, never_rejects (handler e)) ->
  never_rejects (try_catch body handler).
Proof.
  intros Hhandler s. unfold try_catch.
  destruct (body s) as [s' [[]|e]]; [reflexivity|apply Hhandler].
Qed.

Lemma ret_never_rejects : never_rejects (S := S) (ret tt).
Proof. intros s. reflexivity. Qed.

Lemma try_catch_ignore_never_rejects (body : Task S unit) :
  never_rejects (try_catch body (fun _ => ret tt)).
Proof. apply try_catch_never_rejects. intros _. apply ret_never_rejects. Qed.

Lemma never_rejects_resolved (m : Task S unit) (s : S) :
  never_rejects m -> snd (m s) = Resolved tt.
Proof.
  intros Hm. specialize (Hm s).
  destruct (snd (m s)) as [[]|e]; [reflexivity|discriminate].
Qed.

Lemma for_of_never_rejects {X} (xs : list X) (body : X -> Task S unit) :
  (forall x, never_rejects (body x)) -> never_rejects (for_of xs body).
Proof.
  intros Hbody. induction xs as [|x xs IH]; intros s; simpl.
  - reflexivity.
  - unfold bind. pose proof (Hbody x s) as Hx.
    destruct (body x s) as [s' [[]|e]]; [apply IH|discriminate].
Qed.

(** A property of the state that every round of a loop keeps holds after
    the loop. *)
Lemma for_of_preserves {X} (P : S -> Prop) (xs : list X)
    (body : X -> Task S unit) :
  (forall x s, P s -> P (fst (body x s))) ->
  forall s, P s -> P (fst (for_of xs body s)).
Proof.
  intros Hkeep. induction xs as [|x xs IH]; intros s Hs; simpl.
  - exact Hs.
  - unfold bind. pose proof (Hkeep x s Hs) as Hx.
    destruct (body x s) as [s' [[]|e]]; simpl in *; [apply IH|]; exact Hx.
Qed.

(** A property that the round of [x0] establishes and that every round
    keeps holds after a loop that reaches [x0]. *)
Lemma for_of_establishes {X} (P : S -> Prop) (xs : list X)
    (body : X -> Task S unit) (x0 : X) :
  In x0 xs ->
  (forall x, never_rejects (body x)) ->
  (forall x s, P s -> P (fst (body x s))) ->
  (forall s, P (fst (body x0 s))) ->
  forall s, P (fst (for_of xs body s)).
Proof.
  intros Hin Hres Hkeep Hset.
  induction xs as [|x xs IH]; intros s; simpl; [destruct Hin|].
  unfold bind. pose proof (Hres x s) as Hx.
  destruct (body x s) as [s' [[]|e]] eqn:Hrun; [|discriminate].
  destruct Hin as [->|Hin].
  - apply for_of_preserves; [exact Hkeep|].
    pose proof (Hset s) as Hs. rewrite Hrun in Hs. exact Hs.
  - apply IH. exact Hin.
Qed.

End TaskFacts.

(** ** The polling callbacks of the dashboards *)

Lemma or_zero_some (v : Z) : Js.or_zero (Some v) = v.
Proof. simpl. destruct (Z.eqb_spec v 0); congruence. Qed.

Section DashboardTick.
Variables (render : Dashboard) (http : Http).

Lemma expert_check_request_never_rejects (rid : string) :
  never_rejects (ExpertDashboard.check_request render http rid).
Proof.
  unfold ExpertDashboard.check_request.
  case_bool_decide; [apply ret_never_rejects|].
  apply try_catch_never_rejects. intros _.
  apply try_catch_ignore_never_rejects.
Qed.

Lemma farmer_check_request_never_rejects (rid : string) :
  never_rejects (ExpertConsultation.check_request render http rid).
Proof.
  unfold ExpertConsultation.check_request.
  case_bool_decide; [apply ret_never_rejects|].
  apply try_catch_ignore_never_rejects.
Qed.

(** A round of the loop touches the entries of its own request only. *)
Lemma expert_check_request_other (rid other : string) (st : Dashboard) :
  rid <> other ->
  unreadCounts (fst (ExpertDashboard.check_request render http rid st))
    !! other = unreadCounts st !! other /\
  lastMessageCounts (fst (ExpertDashboard.check_request render http rid st))
    !! other = lastMessageCounts st !! other.
Proof.
  intros Hne. unfold ExpertDashboard.check_request.
  case_bool_decide; [split; reflexivity|].
  run_task.
  destruct (get_unread_count http rid) as [data|e]; simpl.
  - destruct (AuthApi.unread_of_payload data =? 0)%Z; simpl.
    + destruct (get_messages http expert rid); simpl;
        rewrite ?lookup_insert_ne by exact Hne; split; reflexivity.
    + rewrite lookup_insert_ne by exact Hne. split; reflexivity.
  - destruct (get_messages http expert rid); simpl;
      rewrite ?lookup_insert_ne by exact Hne; split; reflexivity.
Qed.

Lemma farmer_check_request_other (rid other : string) (st : Dashboard) :
  rid <> other ->
  unreadCounts (fst (ExpertConsultation.check_request render http rid st))
    !! other = unreadCounts st !! other /\
  lastMessageCounts
    (fst (ExpertConsultation.check_request render http rid st))
    !! other = lastMessageCounts st !! other.
Proof.
  intros Hne. unfold ExpertConsultation.check_request.
  case_bool_decide; [split; reflexivity|].
  run_task.
  destruct (get_unread_count http rid) as [data|e]; simpl;
    rewrite ?lookup_insert_ne by exact Hne; split; reflexivity.
Qed.

(** The fallback of the expert's dashboard, for one request. *)
Lemma expert_check_request_fallback (rid : string) (st : Dashboard)
    (e : Error) (msgs : list ChatMessage) :
  openChatId render <> Some rid ->
  get_unread_count http rid = Rejected e ->
  get_messages http expert rid = Resolved msgs ->
  unreadCounts (fst (ExpertDashboard.check_request render http rid st))
    !! rid
    = Some (Z.max 0 (count_sent_by user msgs
                     - Js.or_zero (lastMessageCounts render !! rid))) /\
  lastMessageCounts (fst (ExpertDashboard.check_request render http rid st))
    !! rid = Some (count_sent_by user msgs).
Proof.
  intros Hopen Hunread Hmsgs. unfold ExpertDashboard.check_request.
  rewrite bool_decide_eq_false_2 by exact Hopen.
  run_task. rewrite Hunread. simpl. rewrite Hmsgs. simpl.
  rewrite !lookup_insert_eq. split; reflexivity.
Qed.

End DashboardTick.

Section ExpertTick.
Variables (render : Dashboard) (http : Http).

(** The callback of the expert's dashboard as a loop over the requests
    fetched. *)
Lemma expert_tick_run (st : Dashboard) (pending mine : list string) :
  get_pending_requests http = Resolved pending ->
  get_my_requests http = Resolved mine ->
  fst (ExpertDashboard.checkForNewMessages render http st) =
    fst (for_of (pending ++ mine) (ExpertDashboard.check_request render http)
           (record_call GetMyRequests (record_call GetPendingRequests st))).
Proof.
  intros Hpending Hmine.
  unfold ExpertDashboard.checkForNewMessages, try_catch, bind, promise_all2.
  rewrite Hpending, Hmine. simpl.
  destruct (for_of _ _ _) as [s' [[]|e]]; reflexivity.
Qed.

Lemma expert_tick_failed_fetch (st : Dashboard) :
  (forall pending mine,
      get_pending_requests http = Resolved pending ->
      get_my_requests http = Resolved mine -> False) ->
  fst (ExpertDashboard.checkForNewMessages render http st) =
    record_call GetMyRequests (record_call GetPendingRequests st).
Proof.
  intros Hfail.
  unfold ExpertDashboard.checkForNewMessages, try_catch, bind, promise_all2.
  destruct (get_pending_requests http) as [pending|e1],
           (get_my_requests http) as [mine|e2]; try reflexivity.
  destruct (Hfail pending mine); reflexivity.
Qed.

Lemma expert_tick_never_rejects :
  never_rejects (ExpertDashboard.checkForNewMessages render http).
Proof. apply try_catch_ignore_never_rejects. Qed.

End ExpertTick.

Section FarmerTick.
Variables (render : Dashboard) (http : Http).

Lemma farmer_tick_run (st : Dashboard) (data : list string) :
  get_expert_requests http = Resolved data ->
  fst (ExpertConsultation.checkForNewMessages render http st) =
    fst (for_of data (ExpertConsultation.check_request render http)
           (record_call GetExpertRequests st)).
Proof.
  intros Hdata.
  unfold ExpertConsultation.checkForNewMessages, try_catch, bind,
    AuthApi.getExpertRequests, request.
  rewrite Hdata.
  destruct (for_of _ _ _) as [s' [[]|e]]; reflexivity.
Qed.

Lemma farmer_tick_never_rejects :
  never_rejects (ExpertConsultation.checkForNewMessages render http).
Proof. apply try_catch_ignore_never_rejects. Qed.

End FarmerTick.

(** The catch block of the farmer's poll only logs.  The unread-count
    request for "r1" is rejected while the conversation holds three expert
    messages over a baseline of one: the tick leaves the displayed count at
    0, not at [max(0, 3 - 1)], and the baseline at 1, not at 3. *)
Lemma farmer_tick_has_no_fallback :
  get_unread_count unread_unavailable_http "r1"
    = Rejected TransientBackendError /\
  get_messages unread_unavailable_http user "r1"
    = Resolved (three_messages expert) /\
  displayed_unread
    (fst (ExpertConsultation.checkForNewMessages initial_render
            unread_unavailable_http (dashboard_with 0 1))) "r1" = 0%Z /\
  lastMessageCounts
    (fst (ExpertConsultation.checkForNewMessages initial_render
            unread_unavailable_http (dashboard_with 0 1))) !! "r1" = Some 1%Z /\
  displayed_unread
    (fst (ExpertConsultation.checkForNewMessages initial_render
            unread_unavailable_http (dashboard_with 0 1))) "r1"
    <> Z.max 0 (count_sent_by expert (three_messages expert)
                - Js.or_zero (lastMessageCounts (dashboard_with 0 1) !! "r1")) /\
  lastMessageCounts
    (fst (ExpertConsultation.checkForNewMessages initial_render
            unread_unavailable_http (dashboard_with 0 1))) !! "r1"
    <> Some (count_sent_by expert (three_messages expert)).
Proof. repeat split; vm_compute; congruence. Qed.

(** The callback that [setInterval] runs is the one of the first render
    (the effect that registers it has no dependencies): it reads no open
    chat and an empty baseline, so its fallback shows the number of all the
    farmer's messages of the conversation, whatever baseline is stored. *)
Lemma mount_closure_fallback_counts_all
    (http : Http) (st : Dashboard) (rid : string) (e : Error)
    (msgs : list ChatMessage) :
  get_unread_count http rid = Rejected e ->
  get_messages http expert rid = Resolved msgs ->
  unreadCounts
    (fst (ExpertDashboard.check_request initial_render http rid st)) !! rid
    = Some (count_sent_by user msgs).
Proof.
  intros Hunread Hmsgs.
  destruct (expert_check_request_fallback initial_render http rid st e msgs)
    as [Hu _]; try assumption; [discriminate|].
  rewrite Hu. f_equal. cbn [initial_render lastMessageCounts].
  rewrite lookup_empty. unfold count_sent_by. simpl. lia.
Qed.

(** C1. The fallback of the expert's dashboard does not show the delta over
    the last known count.  The dashboard is mounted and its poll runs twice
    while the unread-count request for "r1" is rejected and the conversation
    holds the same three messages of the farmer.  The first tick shows 3 and
    stores the baseline 3.  On the second tick nothing is new and
    [max(0, 3 - 3) = 0] is due, but the callback is still the one of the
    first render, reads an empty baseline, and shows 3 again. *)
Theorem fallback_ignores_the_stored_baseline :
  get_unread_count unread_unavailable_http "r1"
    = Rejected TransientBackendError /\
  get_messages unread_unavailable_http expert "r1"
    = Resolved (three_messages user) /\
  lastMessageCounts
    (fst (ExpertDashboard.checkForNewMessages initial_render
            unread_unavailable_http initial_render)) !! "r1" = Some 3%Z /\
  displayed_unread
    (fst (interval (ExpertDashboard.checkForNewMessages initial_render)
            [unread_unavailable_http; unread_unavailable_http]
            initial_render)) "r1" = 3%Z /\
  displayed_unread
    (fst (interval (ExpertDashboard.checkForNewMessages initial_render)
            [unread_unavailable_http; unread_unavailable_http]
            initial_render)) "r1"
    <> Z.max 0
         (count_sent_by user (three_messages user)
          - Js.or_zero
              (lastMessageCounts
                 (fst (ExpertDashboard.checkForNewMessages initial_render
                         unread_unavailable_http initial_render)) !! "r1")).
Proof. repeat split; vm_compute; congruence. Qed.

(** C3. The poll does not skip the open conversation.  Chat "r1" is opened
    on the mounted page, which zeroes its badge, and the server then reports
    two unread messages.  The callback of the poll is still the one of the
    first render, for which no chat is open: the next tick sets the badge of
    the open chat to 2, on the expert's dashboard and on the farmer's page
    alike, and advances no baseline. *)
Theorem poll_tick_raises_the_open_chat_badge :
  (openChatId
     (fst (ExpertDashboard.handleStartChat two_unread_http "r1"
             initial_render)) = Some "r1" /\
   displayed_unread
     (fst (ExpertDashboard.handleStartChat two_unread_http "r1"
             initial_render)) "r1" = 0%Z /\
   displayed_unread
     (fst (ExpertDashboard.checkForNewMessages initial_render two_unread_http
             (fst (ExpertDashboard.handleStartChat two_unread_http "r1"
                     initial_render)))) "r1" = 2%Z /\
   lastMessageCounts
     (fst (ExpertDashboard.checkForNewMessages initial_render two_unread_http
             (fst (ExpertDashboard.handleStartChat two_unread_http "r1"
                     initial_render)))) !! "r1" = None) /\
  (openChatId
     (fst (ExpertConsultation.openChat two_unread_http "r1" initial_render))
     = Some "r1" /\
   displayed_unread
     (fst (ExpertConsultation.openChat two_unread_http "r1" initial_render))
     "r1" = 0%Z /\
   displayed_unread
     (fst (ExpertConsultation.checkForNewMessages initial_render
             two_unread_http
             (fst (ExpertConsultation.openChat two_unread_http "r1"
                     initial_render)))) "r1" = 2%Z /\
   lastMessageCounts
     (fst (ExpertConsultation.checkForNewMessages initial_render
             two_unread_http
             (fst (ExpertConsultation.openChat two_unread_http "r1"
                     initial_render)))) !! "r1" = None).
Proof. repeat split. Qed.

(** ** Opening and closing a chat *)

(** C6, as stated, fails: the mark-read request is rejected while the badge
    of "r1" shows 4, and opening the chat (either role) or closing it sets
    the badge to 0 all the same. *)
Lemma failed_mark_read_zeroes_badge :
  post_read unread_unavailable_http "r1" = Rejected TransientBackendError /\
  displayed_unread (dashboard_with 4 0) "r1" = 4%Z /\
  displayed_unread
    (fst (ExpertDashboard.handleStartChat unread_unavailable_http "r1"
            (dashboard_with 4 0))) "r1" = 0%Z /\
  displayed_unread
    (fst (ExpertConsultation.openChat unread_unavailable_http "r1"
            (dashboard_with 4 0))) "r1" = 0%Z /\
  displayed_unread
    (fst (ExpertDashboard.handleCloseChat dashboard_open_r1
            unread_unavailable_http (dashboard_with 4 0))) "r1" = 0%Z.
Proof. repeat split. Qed.

(** C6, amended. Opening a chat ([openChat] on the farmer's page,
    [handleStartChat] on the expert's) and closing the selected chat
    ([handleCloseChat]) set the badge of that conversation to 0 whether the
    mark-read request succeeds or fails.  Only [markMessagesAsRead] of the
    expert's dashboard is conditional: it sets the badge to 0 when the
    mark-read request succeeds and leaves every unread count as it was when
    the request fails. *)
Theorem badge_zeroed_whatever_mark_read
    (render : Dashboard) (http : Http) (st : Dashboard) (rid : string) :
  displayed_unread (fst (ExpertConsultation.openChat http rid st)) rid = 0%Z /\
  displayed_unread (fst (ExpertDashboard.handleStartChat http rid st)) rid
    = 0%Z /\
  (selectedChat render = Some rid ->
   displayed_unread (fst (ExpertDashboard.handleCloseChat render http st)) rid
     = 0%Z) /\
  (forall e, post_read http rid = Rejected e ->
     unreadCounts (fst (ExpertDashboard.markMessagesAsRead http rid st))
       = unreadCounts st) /\
  (post_read http rid = Resolved tt ->
   displayed_unread (fst (ExpertDashboard.markMessagesAsRead http rid st)) rid
     = 0%Z).
Proof.
  unfold displayed_unread.
  split; [|split; [|split; [|split]]].
  - unfold ExpertConsultation.openChat. run_task.
    destruct (post_start http rid) as [[]|e1]; simpl;
      [destruct (post_read http rid) as [[]|e2]; simpl|];
      rewrite lookup_insert_eq; reflexivity.
  - unfold ExpertDashboard.handleStartChat. run_task.
    destruct (post_read http rid) as [[]|e]; simpl;
      rewrite lookup_insert_eq; reflexivity.
  - intros Hselected. unfold ExpertDashboard.handleCloseChat.
    rewrite Hselected. run_task.
    destruct (post_read http rid) as [[]|e]; simpl;
      rewrite lookup_insert_eq; reflexivity.
  - intros e Hread. unfold ExpertDashboard.markMessagesAsRead. run_task.
    rewrite Hread. reflexivity.
  - intros Hread. unfold ExpertDashboard.markMessagesAsRead. run_task.
    rewrite Hread. simpl. rewrite lookup_insert_eq. reflexivity.
Qed.

(** ** The polling loops *)

(** C9. No callback of a polling loop lets a rejection escape: the 3-second
    polls of both chat panels and the 5-second polls of both dashboards
    resolve whatever the backend answers.  A run of any number of ticks
    therefore reaches its end, and a tick whose fetch succeeds shows the
    fetched messages whatever happened in the ticks before it. *)
Theorem polling_never_propagates_errors
    (who : Sender) (props : PanelProps) (render : Dashboard) :
  (forall http, never_rejects (ChatPanel.interval_tick who props http)) /\
  (forall http,
     never_rejects (ExpertDashboard.checkForNewMessages render http)) /\
  (forall http,
     never_rejects (ExpertConsultation.checkForNewMessages render http)) /\
  (forall backends,
     never_rejects (interval (ChatPanel.interval_tick who props) backends) /\
     never_rejects
       (interval (ExpertDashboard.checkForNewMessages render) backends) /\
     never_rejects
       (interval (ExpertConsultation.checkForNewMessages render) backends)) /\
  (forall backends http latest st,
     get_messages http who (requestId props) = Resolved latest ->
     messages
       (fst (interval (ChatPanel.interval_tick who props)
               (backends ++ [http]) st)) = latest).
Proof.
  split; [|split; [|split; [|split]]].
  - intros http. apply interval_tick_never_rejects.
  - intros http. apply expert_tick_never_rejects.
  - intros http. apply farmer_tick_never_rejects.
  - intros backends. unfold interval.
    split; [|split]; apply for_of_never_rejects; intros http.
    + apply interval_tick_never_rejects.
    + apply expert_tick_never_rejects.
    + apply farmer_tick_never_rejects.
  - intros backends http latest st Hfetch. unfold interval.
    revert st. induction backends as [|b backends IH]; intros st; simpl.
    + unfold bind. rewrite interval_tick_run, Hfetch. cbn [fst snd].
      apply (adopt_latest_messages who props).
    + unfold bind at 1.
      pose proof (interval_tick_never_rejects who props b st) as Hb.
      destruct (ChatPanel.interval_tick who props b st) as [s' [[]|e]];
        [apply IH|discriminate].
Qed.

(** ** The read cursor *)

Section ReadCursor.
Import SpecModel.

Lemma markRead_lookup_same (q : string) (r : Sender) (marker : nat)
    (t : Cursors) :
  getCursor q r (markRead q r marker t) =
    Some (match getCursor q r t with
          | Some cursor => cursor `max` marker
          | None => marker
          end).
Proof.
  unfold getCursor, markRead.
  destruct (t !! (q, r)) as [cursor|] eqn:Hcursor.
  - destruct (Nat.leb_spec marker cursor).
    + rewrite Hcursor. f_equal. lia.
    + rewrite lookup_insert_eq. f_equal. lia.
  - rewrite lookup_insert_eq. reflexivity.
Qed.

Lemma markRead_lookup_other (q q' : string) (r r' : Sender) (marker : nat)
    (t : Cursors) :
  (q, r) <> (q', r') ->
  getCursor q' r' (markRead q r marker t) = getCursor q' r' t.
Proof.
  intros Hne. unfold getCursor, markRead.
  destruct (t !! (q, r)) as [cursor|];
    [destruct (marker <=? cursor)%nat; [reflexivity|]|];
    apply lookup_insert_ne; exact Hne.
Qed.

Lemma cursor_after_cons (before : option nat) (m : nat) (ms : list nat) :
  cursor_after
    (Some (match before with Some c => c `max` m | None => m end)) ms
  = cursor_after before (m :: ms).
Proof. destruct before as [c|]; simpl; f_equal; lia. Qed.

Lemma markers_of_cons (q : string) (r : Sender) (c : MarkCall)
    (calls : list MarkCall) :
  markers_of q r (c :: calls) =
    if decide (call_request c = q ∧ call_role c = r)
    then call_marker c :: markers_of q r calls
    else markers_of q r calls.
Proof.
  unfold markers_of. rewrite filter_cons.
  destruct (decide _); reflexivity.
Qed.

Lemma markReads_cursor (q : string) (r : Sender) (calls : list MarkCall)
    (t : Cursors) :
  getCursor q r (markReads calls t)
    = cursor_after (getCursor q r t) (markers_of q r calls).
Proof.
  revert t. induction calls as [|c calls IH]; intros t.
  - simpl. destruct (getCursor q r t); simpl; f_equal; lia.
  - change (markReads (c :: calls) t)
      with (markReads calls
              (markRead (call_request c) (call_role c) (call_marker c) t)).
    rewrite IH, markers_of_cons.
    destruct (decide (call_request c = q ∧ call_role c = r))
      as [[Hq Hr]|Hother].
    + subst q r. rewrite markRead_lookup_same. apply cursor_after_cons.
    + rewrite markRead_lookup_other; [reflexivity|].
      intros [= Hq Hr]. apply Hother. split; assumption.
Qed.

Lemma max_list_permutation (ms ms' : list nat) :
  ms ≡ₚ ms' -> max_list ms = max_list ms'.
Proof. induction 1; simpl; lia. Qed.

Lemma cursor_after_permutation (before : option nat) (ms ms' : list nat) :
  ms ≡ₚ ms' -> cursor_after before ms = cursor_after before ms'.
Proof.
  intros Hperm. pose proof (max_list_permutation ms ms' Hperm) as Hmax.
  destruct before as [c|]; simpl; [rewrite Hmax; reflexivity|].
  destruct ms as [|m ms], ms' as [|m' ms'].
  - reflexivity.
  - apply Permutation_nil_l in Hperm. discriminate.
  - apply Permutation_nil_r in Hperm. discriminate.
  - rewrite Hmax. reflexivity.
Qed.

Lemma markers_of_permutation (q : string) (r : Sender)
    (calls calls' : list MarkCall) :
  calls ≡ₚ calls' -> markers_of q r calls ≡ₚ markers_of q r calls'.
Proof. intros Hperm. unfold markers_of. rewrite Hperm. reflexivity. Qed.

End ReadCursor.

(** C4. For every sequence of [markRead] calls, the cursor of a
    (request, role) pair afterwards is the maximum of its cursor before and
    of the markers of the calls made on that pair, so from "nothing read" it
    is [max(m1, m2, ...)]; the resulting tracker is the same for every order
    of the calls; a call whose marker is at most the existing cursor, and so
    a repeated call, changes nothing; and the cursor never regresses. *)
Theorem markRead_cursor_is_max
    (t : SpecModel.Cursors) (calls : list SpecModel.MarkCall)
    (q : string) (r : Sender) :
  SpecModel.getCursor q r (SpecModel.markReads calls t)
    = SpecModel.cursor_after (SpecModel.getCursor q r t)
        (SpecModel.markers_of q r calls) /\
  (SpecModel.getCursor q r t = None ->
   SpecModel.markers_of q r calls <> [] ->
   SpecModel.getCursor q r (SpecModel.markReads calls t)
     = Some (max_list (SpecModel.markers_of q r calls))) /\
  (forall calls', calls ≡ₚ calls' ->
     SpecModel.markReads calls' t = SpecModel.markReads calls t) /\
  (forall marker cursor,
     SpecModel.getCursor q r t = Some cursor -> marker <= cursor ->
     SpecModel.markRead q r marker t = t) /\
  (forall marker,
     SpecModel.markRead q r marker (SpecModel.markRead q r marker t)
       = SpecModel.markRead q r marker t) /\
  (forall cursor,
     SpecModel.getCursor q r t = Some cursor ->
     exists cursor',
       SpecModel.getCursor q r (SpecModel.markReads calls t) = Some cursor' /\
       cursor <= cursor').
Proof.
  split; [apply markReads_cursor|].
  split.
  { intros Hnone Hcalls. rewrite markReads_cursor, Hnone.
    destruct (SpecModel.markers_of q r calls); [contradiction|reflexivity]. }
  split.
  { intros calls' Hperm. apply map_eq. intros [q' r'].
    change (SpecModel.getCursor q' r' (SpecModel.markReads calls' t)
            = SpecModel.getCursor q' r' (SpecModel.markReads calls t)).
    rewrite !markReads_cursor.
    apply cursor_after_permutation, markers_of_permutation.
    symmetry. exact Hperm. }
  split.
  { intros marker cursor Hcursor Hle. unfold SpecModel.markRead.
    unfold SpecModel.getCursor in Hcursor. rewrite Hcursor.
    destruct (Nat.leb_spec marker cursor); [reflexivity|lia]. }
  split.
  { intros marker. unfold SpecModel.markRead at 1.
    pose proof (markRead_lookup_same q r marker t) as Hsame.
    unfold SpecModel.getCursor in Hsame. rewrite Hsame.
    destruct (t !! (q, r)) as [cursor|];
      [destruct (Nat.leb_spec marker (cursor `max` marker)); [reflexivity|lia]|].
    rewrite Nat.leb_refl. reflexivity. }
  intros cursor Hcursor. rewrite markReads_cursor, Hcursor. simpl.
  eexists. split; [reflexivity|lia].
Qed.

Lemma markRead_cursor_is_max_witness :
  SpecModel.getCursor "r1" expert
    (SpecModel.markReads
       [SpecModel.mkMarkCall "r1" expert 5; SpecModel.mkMarkCall "r1" user 8;
        SpecModel.mkMarkCall "r1" expert 9; SpecModel.mkMarkCall "r1" expert 3]
       ∅) = Some 9.
Proof.
  apply (proj1 (proj2 (markRead_cursor_is_max ∅
    [SpecModel.mkMarkCall "r1" expert 5; SpecModel.mkMarkCall "r1" user 8;
     SpecModel.mkMarkCall "r1" expert 9; SpecModel.mkMarkCall "r1" expert 3]
    "r1" expert))).
  - reflexivity.
  - discriminate.
Defined.

(** * Further properties of the chat client *)

(** ** Day groups of the expert's panel *)

Section DayGroups.
Variable toDateString : string -> string.

Import ExpertChatPanelList.

Lemma push_message_keys_known (date : string) (m : ChatMessage)
    (groups : list (string * list ChatMessage)) :
  date ∈ fst <$> groups -> fst <$> push_message date m groups = fst <$> groups.
Proof.
  induction groups as [|[key ms] groups IH]; simpl; intros Hin.
  - apply elem_of_nil in Hin. contradiction.
  - case_bool_decide as Hkey; simpl; [reflexivity|].
    apply elem_of_cons in Hin as [Heq|Hin]; [congruence|].
    f_equal. apply IH, Hin.
Qed.

Lemma push_message_keys_fresh (date : string) (m : ChatMessage)
    (groups : list (string * list ChatMessage)) :
  date ∉ fst <$> groups ->
  push_message date m groups = groups ++ [(date, [m])].
Proof.
  induction groups as [|[key ms] groups IH]; simpl; intros Hout.
  - reflexivity.
  - rewrite bool_decide_eq_false_2.
    + rewrite IH; [reflexivity|].
      intros Hin. apply Hout, list_elem_of_further, Hin.
    + intros ->. apply Hout, list_elem_of_here.
Qed.

Lemma push_message_group_same (date : string) (m : ChatMessage)
    (groups : list (string * list ChatMessage)) :
  group_of date (push_message date m groups) = group_of date groups ++ [m].
Proof.
  induction groups as [|[k ms] groups IH]; simpl.
  - rewrite bool_decide_eq_true_2; reflexivity.
  - case_bool_decide as Hk; simpl.
    + rewrite bool_decide_eq_true_2; [reflexivity|exact Hk].
    + rewrite bool_decide_eq_false_2; [exact IH|exact Hk].
Qed.

Lemma push_message_group_other (date key : string) (m : ChatMessage)
    (groups : list (string * list ChatMessage)) :
  date <> key ->
  group_of key (push_message date m groups) = group_of key groups.
Proof.
  intros Hne. induction groups as [|[k ms] groups IH]; simpl.
  - rewrite bool_decide_eq_false_2; [reflexivity|exact Hne].
  - case_bool_decide as Hk; simpl.
    + subst k. rewrite !bool_decide_eq_false_2 by exact Hne. reflexivity.
    + case_bool_decide; [reflexivity|exact IH].
Qed.

Lemma push_message_nodup (date : string) (m : ChatMessage)
    (groups : list (string * list ChatMessage)) :
  NoDup (fst <$> groups) -> NoDup (fst <$> push_message date m groups).
Proof.
  intros Hnodup.
  destruct (decide (date ∈ fst <$> groups)) as [Hin|Hout].
  { rewrite push_message_keys_known by exact Hin. exact Hnodup. }
  rewrite push_message_keys_fresh, fmap_app by exact Hout. simpl.
  apply NoDup_app. split; [exact Hnodup|]. split; [|apply NoDup_singleton].
  intros x Hx ->%list_elem_of_singleton. contradiction.
Qed.

Lemma push_message_nonempty (date : string) (m : ChatMessage)
    (groups : list (string * list ChatMessage)) :
  Forall (fun g => snd g <> []) groups ->
  Forall (fun g => snd g <> []) (push_message date m groups).
Proof.
  induction 1 as [|[k ms] groups Hms Hrest IH]; simpl.
  - constructor; [discriminate|constructor].
  - case_bool_decide; constructor; simpl; try assumption.
    destruct ms; discriminate.
Qed.

Lemma push_message_permutation (date : string) (m : ChatMessage)
    (groups : list (string * list ChatMessage)) :
  concat (snd <$> push_message date m groups) ≡ₚ concat (snd <$> groups) ++ [m].
Proof.
  induction groups as [|[k ms] groups IH]; simpl; [reflexivity|].
  case_bool_decide; simpl.
  - rewrite <- !(assoc_L (++)). apply Permutation_app_head, Permutation_app_comm.
  - rewrite IH, (assoc_L (++)). reflexivity.
Qed.

Lemma group_of_member (date : string) (ms : list ChatMessage)
    (groups : list (string * list ChatMessage)) :
  NoDup (fst <$> groups) -> (date, ms) ∈ groups -> group_of date groups = ms.
Proof.
  induction groups as [|[k ms'] groups IH]; simpl; intros Hnodup Hin.
  - apply elem_of_nil in Hin. contradiction.
  - apply NoDup_cons in Hnodup as [Hfresh Hnodup].
    apply elem_of_cons in Hin as [[= <- <-]|Hin].
    + rewrite bool_decide_eq_true_2; reflexivity.
    + rewrite bool_decide_eq_false_2; [apply IH; assumption|].
      intros ->. apply Hfresh.
      apply (list_elem_of_fmap_2 fst _ (date, ms)), Hin.
Qed.

Lemma group_of_present (date : string)
    (groups : list (string * list ChatMessage)) :
  date ∈ fst <$> groups -> (date, group_of date groups) ∈ groups.
Proof.
  induction groups as [|[k ms] groups IH]; simpl; intros Hin.
  - apply elem_of_nil in Hin. contradiction.
  - case_bool_decide as Hk.
    + subst k. apply list_elem_of_here.
    + apply elem_of_cons in Hin as [Heq|Hin]; [congruence|].
      apply list_elem_of_further, IH, Hin.
Qed.

(** What a run of the reducer adds to the groups it starts from. *)
Lemma fold_push_message (messages : list ChatMessage)
    (groups : list (string * list ChatMessage)) :
  let result :=
    foldl (fun groups m => push_message (toDateString (timestamp m)) m groups) groups messages in
  (NoDup (fst <$> groups) -> NoDup (fst <$> result)) /\
  (Forall (fun g => snd g <> []) groups ->
   Forall (fun g => snd g <> []) result) /\
  (forall key,
     group_of key result
       = group_of key groups ++ filter (fun m => toDateString (timestamp m) = key) messages) /\
  (forall key, key ∈ fst <$> result <->
     key ∈ fst <$> groups \/ key ∈ (fun m => toDateString (timestamp m)) <$> messages) /\
  concat (snd <$> result) ≡ₚ concat (snd <$> groups) ++ messages.
Proof.
  revert groups. induction messages as [|m messages IH]; intros groups; simpl.
  - split; [auto|]. split; [auto|].
    split; [intros key; rewrite app_nil_r; reflexivity|].
    split; [|rewrite app_nil_r; reflexivity].
    intros key. split; [auto|]. intros [?|Hin]; [assumption|].
    apply elem_of_nil in Hin. contradiction.
  - destruct (IH (push_message (toDateString (timestamp m)) m groups)) as (Hnodup & Hfull & Hgroup & Hkeys & Hperm).
    split; [intros H; apply Hnodup, push_message_nodup, H|].
    split; [intros H; apply Hfull, push_message_nonempty, H|].
    split; [|split].
    + intros key. rewrite Hgroup, filter_cons.
      destruct (decide (toDateString (timestamp m) = key)) as [<-|Hne].
      * rewrite push_message_group_same, <- (assoc_L (++)). reflexivity.
      * rewrite push_message_group_other by exact Hne. reflexivity.
    + intros key. rewrite Hkeys, ?fmap_cons, elem_of_cons.
      destruct (decide (toDateString (timestamp m) ∈ fst <$> groups))
        as [Hin|Hout].
      * rewrite push_message_keys_known by exact Hin.
        split; [intros [?|?]; auto|].
        intros [?|[->|?]]; auto.
      * rewrite push_message_keys_fresh, fmap_app, elem_of_app by exact Hout.
        simpl. rewrite list_elem_of_singleton.
        split; [intros [[?|?]|?]; auto|].
        intros [?|[?|?]]; auto.
    + rewrite Hperm, push_message_permutation.
      rewrite <- (assoc_L (++)). reflexivity.
Qed.

(** X1. Every group of [groupedMessages] holds exactly the messages of its
    day, in the order of the list, and at least one of them, so the heading
    of the group, which reads the first one, shows a timestamp of that day;
    no day has two groups, every message is in the group of its day, and the
    groups laid end to end are a rearrangement of the message list. *)
Theorem grouped_messages_are_the_days (messages : list ChatMessage) :
  NoDup (fst <$> groupedMessages toDateString messages) /\
  (forall date dateMessages,
     (date, dateMessages) ∈ groupedMessages toDateString messages ->
     dateMessages
       = filter (fun m => toDateString (timestamp m) = date) messages /\
     dateMessages <> [] /\
     toDateString <$> heading_timestamp dateMessages = Some date) /\
  (forall m, m ∈ messages ->
     exists dateMessages,
       (toDateString (timestamp m), dateMessages)
         ∈ groupedMessages toDateString messages /\
       m ∈ dateMessages) /\
  concat (snd <$> groupedMessages toDateString messages) ≡ₚ messages.
Proof.
  unfold groupedMessages.
  destruct (fold_push_message messages [])
    as (Hnodup & Hfull & Hgroup & Hkeys & Hperm).
  specialize (Hnodup (NoDup_nil_2 (A := string))).
  specialize (Hfull (Forall_nil_2 _)).
  split; [exact Hnodup|]. split; [|split; [|exact Hperm]].
  - intros date dateMessages Hin.
    assert (Hfilter :
      dateMessages
        = filter (fun m => toDateString (timestamp m) = date) messages).
    { rewrite <- (group_of_member date dateMessages _ Hnodup Hin).
      apply Hgroup. }
    assert (Hne : dateMessages <> []).
    { rewrite Forall_forall in Hfull. apply (Hfull _ Hin). }
    split; [exact Hfilter|]. split; [exact Hne|].
    unfold heading_timestamp.
    destruct dateMessages as [|m0 rest]; [contradiction|]. simpl. f_equal.
    assert (Hm0 : m0 ∈ filter (fun m => toDateString (timestamp m) = date)
                         messages).
    { rewrite <- Hfilter. apply list_elem_of_here. }
    apply list_elem_of_filter in Hm0 as [Hday _]. exact Hday.
  - intros m Hm.
    exists (group_of (toDateString (timestamp m))
              (groupedMessages toDateString messages)).
    unfold groupedMessages.
    split.
    + apply group_of_present, Hkeys. right.
      apply (list_elem_of_fmap_2 (fun m => toDateString (timestamp m))), Hm.
    + rewrite Hgroup. simpl. apply list_elem_of_filter. auto.
Qed.

Lemma fold_push_message_fresh_day (date : string) (ms : list ChatMessage)
    (groups : list (string * list ChatMessage)) (first : ChatMessage) :
  date ∉ fst <$> groups ->
  Forall (fun m => toDateString (timestamp m) = date) (first :: ms) ->
  foldl (fun groups m => push_message (toDateString (timestamp m)) m groups)
        groups (first :: ms)
    = groups ++ [(date, first :: ms)].
Proof.
  intros Hfresh Hday.
  assert (Hpush : forall m acc,
            push_message date m (groups ++ [(date, acc)])
              = groups ++ [(date, acc ++ [m])]).
  { intros m acc. clear Hday.
    induction groups as [|[k ks] groups IH]; simpl.
    - rewrite bool_decide_eq_true_2; reflexivity.
    - rewrite bool_decide_eq_false_2.
      + rewrite IH; [reflexivity|].
        intros Hin. apply Hfresh. simpl. apply list_elem_of_further, Hin.
      + intros ->. apply Hfresh. simpl. apply list_elem_of_here. }
  apply Forall_cons in Hday as [Hfirst Hday]. simpl.
  rewrite Hfirst, push_message_keys_fresh by exact Hfresh.
  change (first :: ms) with ([first] ++ ms).
  generalize [first] as acc. induction Hday as [|m ms Hm _ IH]; intros acc.
  - rewrite app_nil_r. reflexivity.
  - simpl. rewrite Hm, Hpush, IH, <- (assoc_L (++)). reflexivity.
Qed.

Lemma grouping_day_blocks (blocks : list (string * list ChatMessage)) :
  NoDup (fst <$> blocks) ->
  Forall (fun b => snd b <> [] /\
            Forall (fun m => toDateString (timestamp m) = fst b) (snd b))
         blocks ->
  groupedMessages toDateString (concat (snd <$> blocks)) = blocks.
Proof.
  intros Hnodup Hblocks.
  assert (Hgen : forall groups,
            (forall k, k ∈ fst <$> groups -> k ∉ fst <$> blocks) ->
            foldl (fun groups m =>
                     push_message (toDateString (timestamp m)) m groups)
                  groups (concat (snd <$> blocks)) = groups ++ blocks).
  { induction Hblocks as [|[date ms] blocks [Hne Hday] _ IH];
      intros groups Hdisjoint; simpl in *.
    - rewrite app_nil_r. reflexivity.
    - apply NoDup_cons in Hnodup as [Hfresh Hnodup].
      destruct ms as [|first ms]; [contradiction|].
      rewrite foldl_app, (fold_push_message_fresh_day date ms groups first).
      + rewrite IH; [rewrite <- (assoc_L (++)); reflexivity|exact Hnodup|].
        intros k Hk. rewrite fmap_app, elem_of_app in Hk.
        destruct Hk as [Hk|Hk].
        * intros Hin. apply (Hdisjoint k Hk), list_elem_of_further, Hin.
        * simpl in Hk. apply list_elem_of_singleton in Hk as ->.
          exact Hfresh.
      + intros Hin. apply (Hdisjoint date Hin), list_elem_of_here.
      + exact Hday. }
  unfold groupedMessages.
  rewrite Hgen; [reflexivity|].
  intros k Hk. apply elem_of_nil in Hk. contradiction.
Qed.

(** X2. When the message list is a sequence of days, each a non-empty block
    of messages of one day and no day coming back later, [groupedMessages]
    returns exactly these blocks in the same order, so the expert's panel
    prints the messages in the order of the list. *)
Theorem day_blocks_are_grouped_as_they_are
    (blocks : list (string * list ChatMessage)) :
  NoDup (fst <$> blocks) ->
  Forall (fun b => snd b <> [] /\
            Forall (fun m => toDateString (timestamp m) = fst b) (snd b))
         blocks ->
  groupedMessages toDateString (concat (snd <$> blocks)) = blocks /\
  concat (snd <$> groupedMessages toDateString (concat (snd <$> blocks)))
    = concat (snd <$> blocks).
Proof.
  intros Hnodup Hblocks.
  rewrite (grouping_day_blocks blocks Hnodup Hblocks). split; reflexivity.
Qed.

End DayGroups.

(** ** Date separators of the farmer's panel *)

Section DateSeparators.
Variable toDateString : string -> string.
Import UserChatPanelList.

Lemma rows_after_offset (before messages : list ChatMessage) :
  concat (imap (fun idx => message_rows toDateString (before ++ messages)
                             (length before + idx)) messages)
    = rows_after toDateString (last before) messages.
Proof.
  revert before. induction messages as [|m rest IH]; intros before.
  - reflexivity.
  - rewrite imap_cons. cbn [concat rows_after].
    assert (Htail :
      concat (imap ((fun idx => message_rows toDateString
                                  (before ++ m :: rest) (length before + idx))
                    ∘ S) rest)
        = rows_after toDateString (Some m) rest).
    { specialize (IH (before ++ [m])).
      rewrite last_snoc, <- (assoc_L (++)) in IH. simpl in IH.
      rewrite <- IH. f_equal. apply imap_ext. intros idx x _. simpl.
      rewrite length_app. simpl. f_equal. lia. }
    rewrite Htail, Nat.add_0_r. unfold message_rows.
    rewrite <- (assoc_L (++)). simpl. f_equal.
    destruct before as [|b before _] using rev_ind; [reflexivity|].
    rewrite last_snoc, length_app, Nat.add_comm. simpl.
    rewrite <- (assoc_L (++)), lookup_app_r by lia.
    rewrite Nat.sub_diag. simpl.
    destruct (bool_decide _); reflexivity.
Qed.

Lemma rows_by_recursion (messages : list ChatMessage) :
  rows toDateString messages = rows_after toDateString None messages.
Proof. exact (rows_after_offset [] messages). Qed.

Lemma read_rows_after (prev : option ChatMessage) (current : option string)
    (messages : list ChatMessage) :
  (forall p, prev = Some p -> current = Some (toDateString (timestamp p))) ->
  read_rows toDateString current (rows_after toDateString prev messages)
    = (fun m => (Some (toDateString (timestamp m)), m)) <$> messages.
Proof.
  revert prev current.
  induction messages as [|m rest IH]; intros prev current Hprev;
    [reflexivity|].
  cbn [rows_after fmap list_fmap].
  assert (Hnext : forall p, Some m = Some p ->
            Some (toDateString (timestamp m))
              = Some (toDateString (timestamp p))).
  { intros p [= <-]. reflexivity. }
  destruct prev as [p|]; [case_bool_decide as Hday|]; simpl.
  - rewrite (Hprev p eq_refl), Hday. f_equal. apply IH.
    intros q [= <-]. reflexivity.
  - f_equal. apply IH, Hnext.
  - f_equal. apply IH, Hnext.
Qed.

(** X3. In the farmer's panel every message is printed once, in the order
    of the list, below a date separator of its own day: reading the rows
    from the top gives each message with that day as the last date shown. *)
Theorem every_message_under_its_day (messages : list ChatMessage) :
  read_rows toDateString None (rows toDateString messages)
    = (fun m => (Some (toDateString (timestamp m)), m)) <$> messages.
Proof.
  rewrite rows_by_recursion. apply read_rows_after. discriminate.
Qed.

Lemma separator_days_cover (prev : option ChatMessage)
    (messages : list ChatMessage) (m : ChatMessage) :
  m ∈ messages ->
  toDateString (timestamp m)
    ∈ separator_days toDateString (rows_after toDateString prev messages)
  \/ exists p, prev = Some p /\
       toDateString (timestamp p) = toDateString (timestamp m).
Proof.
  revert prev. induction messages as [|m0 rest IH]; intros prev Hin.
  - apply elem_of_nil in Hin. contradiction.
  - cbn [rows_after]. apply elem_of_cons in Hin as [->|Hin].
    + destruct prev as [p|]; [case_bool_decide as Hday|]; simpl.
      * right. eauto.
      * left. apply list_elem_of_here.
      * left. apply list_elem_of_here.
    + destruct (IH (Some m0) Hin) as [Hsep|(p & [= <-] & Hday)].
      * left. destruct prev as [p|]; [case_bool_decide|]; simpl;
          try apply list_elem_of_further; exact Hsep.
      * destruct prev as [p|]; [case_bool_decide as Hp|]; simpl.
        -- right. exists p. split; [reflexivity|congruence].
        -- left. rewrite <- Hday. apply list_elem_of_here.
        -- left. rewrite <- Hday. apply list_elem_of_here.
Qed.

Lemma separator_days_of_blocks (prev : option ChatMessage)
    (blocks : list (string * list ChatMessage)) :
  NoDup (fst <$> blocks) ->
  Forall (fun b => snd b <> [] /\
                   Forall (fun m => toDateString (timestamp m) = fst b) (snd b))
         blocks ->
  (forall p, prev = Some p -> toDateString (timestamp p) ∉ fst <$> blocks) ->
  separator_days toDateString
    (rows_after toDateString prev (concat (snd <$> blocks)))
    = fst <$> blocks.
Proof.
  intros Hnodup Hblocks. revert prev.
  induction Hblocks as [|[date ms] blocks [Hne Hday] _ IH]; intros prev Hprev;
    [reflexivity|].
  apply NoDup_cons in Hnodup as [Hfresh Hnodup]. simpl in *.
  destruct ms as [|first ms]; [contradiction|].
  apply Forall_cons in Hday as [Hfirst Hday].
  assert (Hrun : forall q acc,
            toDateString (timestamp q) = date ->
            Forall (fun m => toDateString (timestamp m) = date) acc ->
            separator_days toDateString
              (rows_after toDateString (Some q)
                 (acc ++ concat (snd <$> blocks)))
              = fst <$> blocks).
  { intros q acc Hq Hacc. revert q Hq.
    induction Hacc as [|a acc Ha _ IHacc]; intros q Hq.
    - simpl. apply IH; [exact Hnodup|].
      intros p [= <-]. rewrite Hq. exact Hfresh.
    - cbn [app rows_after].
      rewrite bool_decide_eq_true_2 by congruence. simpl.
      apply IHacc, Ha. }
  cbn [app rows_after].
  destruct prev as [p|].
  - rewrite bool_decide_eq_false_2.
    + simpl. rewrite Hfirst. f_equal. apply Hrun; assumption.
    + intros Hp. apply (Hprev p eq_refl). rewrite Hp, Hfirst.
      apply list_elem_of_here.
  - simpl. rewrite Hfirst. f_equal. apply Hrun; assumption.
Qed.

(** X4. The farmer's panel prints at least as many date separators as the
    expert's panel prints day groups for the same messages: every day of a
    group is the day of some separator. *)
Theorem separators_cover_the_day_groups (messages : list ChatMessage) :
  (forall date,
     date ∈ fst <$> ExpertChatPanelList.groupedMessages toDateString messages
     -> date ∈ separator_days toDateString (rows toDateString messages)) /\
  length (ExpertChatPanelList.groupedMessages toDateString messages)
    <= length (separator_days toDateString (rows toDateString messages)).
Proof.
  assert (Hcover : forall date,
    date ∈ fst <$> ExpertChatPanelList.groupedMessages toDateString messages
    -> date ∈ separator_days toDateString (rows toDateString messages)).
  { intros date Hdate.
    unfold ExpertChatPanelList.groupedMessages in Hdate.
    destruct (fold_push_message toDateString messages [])
      as (_ & _ & _ & Hkeys & _).
    apply Hkeys in Hdate as [Hnil|Hmsg].
    { apply elem_of_nil in Hnil. contradiction. }
    apply list_elem_of_fmap in Hmsg as (m & -> & Hm).
    rewrite rows_by_recursion.
    destruct (separator_days_cover None messages m Hm)
      as [Hsep|(p & Hp & _)]; [exact Hsep|discriminate]. }
  split; [exact Hcover|].
  rewrite <- (length_fmap fst). apply submseteq_length, NoDup_submseteq.
  - unfold ExpertChatPanelList.groupedMessages.
    destruct (fold_push_message toDateString messages [])
      as (Hnodup & _).
    apply Hnodup, NoDup_nil_2.
  - exact Hcover.
Qed.

(** X5. On a message list that is a sequence of days (non-empty blocks of
    one day each, no day coming back) the farmer's panel prints one date
    separator per day, and they are the days of the expert's groups in the
    same order. *)
Theorem both_panels_print_the_same_days
    (blocks : list (string * list ChatMessage)) :
  NoDup (fst <$> blocks) ->
  Forall (fun b => snd b <> [] /\
            Forall (fun m => toDateString (timestamp m) = fst b) (snd b))
         blocks ->
  separator_days toDateString
    (rows toDateString (concat (snd <$> blocks)))
    = fst <$> ExpertChatPanelList.groupedMessages toDateString
                (concat (snd <$> blocks)) /\
  separator_days toDateString
    (rows toDateString (concat (snd <$> blocks))) = fst <$> blocks.
Proof.
  intros Hnodup Hblocks.
  rewrite (grouping_day_blocks toDateString blocks Hnodup Hblocks).
  rewrite rows_by_recursion.
  rewrite separator_days_of_blocks by (assumption || discriminate).
  split; reflexivity.
Qed.

End DateSeparators.

(** ** The API base *)

Lemma trim_start_suffix (s : Js.Text) :
  exists spaces, s = spaces ++ Js.trim_start s.
Proof.
  induction s as [|c s [spaces IH]]; simpl; [exists []; reflexivity|].
  destruct (Js.is_whitespace c); [|exists []; reflexivity].
  exists (c :: spaces). simpl. f_equal. exact IH.
Qed.

Lemma trim_start_head (s : Js.Text) (c : N) (rest : Js.Text) :
  Js.trim_start s = c :: rest -> Js.is_whitespace c = false.
Proof.
  induction s as [|c' s IH]; simpl; [discriminate|].
  destruct (Js.is_whitespace c') eqn:Hws; [exact IH|].
  intros [= <- <-]. exact Hws.
Qed.

Lemma trim_start_fixed (s : Js.Text) :
  (forall c rest, s = c :: rest -> Js.is_whitespace c = false) ->
  Js.trim_start s = s.
Proof.
  destruct s as [|c rest]; [reflexivity|]. intros Hhead. simpl.
  rewrite (Hhead c rest eq_refl). reflexivity.
Qed.

Lemma trim_end_prefix (s : Js.Text) :
  exists spaces, s = Js.trim_end s ++ spaces.
Proof.
  unfold Js.trim_end. destruct (trim_start_suffix (rev s)) as [spaces Hrev].
  exists (rev spaces).
  apply (f_equal (@rev N)) in Hrev.
  rewrite List.rev_involutive in Hrev.
  etransitivity; [exact Hrev|apply List.rev_app_distr].
Qed.

(** Trimming twice is trimming once. *)
Lemma trim_idempotent (s : Js.Text) : Js.trim (Js.trim s) = Js.trim s.
Proof.
  unfold Js.trim.
  assert (Hstart : Js.trim_start (Js.trim_end (Js.trim_start s))
                   = Js.trim_end (Js.trim_start s)).
  { apply trim_start_fixed. intros c rest Hc.
    destruct (trim_end_prefix (Js.trim_start s)) as [spaces Hprefix].
    rewrite Hc in Hprefix. simpl in Hprefix.
    apply (trim_start_head s c (rest ++ spaces)). exact Hprefix. }
  rewrite Hstart. unfold Js.trim_end.
  rewrite List.rev_involutive. f_equal.
  apply trim_start_fixed. intros c rest Hc.
  apply (trim_start_head (rev (Js.trim_start s)) c rest). exact Hc.
Qed.

Lemma trim_elements (s : Js.Text) (c : N) : c ∈ Js.trim s -> c ∈ s.
Proof.
  unfold Js.trim. intros Hc.
  destruct (trim_start_suffix s) as [spaces Hs].
  destruct (trim_end_prefix (Js.trim_start s)) as [spaces' Hs'].
  rewrite Hs, Hs'. rewrite !elem_of_app. auto.
Qed.

Lemma first_field_no_comma (s : Js.Text) :
  44%N ∉ AuthApiConfig.first_field s.
Proof.
  induction s as [|c s IH]; simpl; [apply not_elem_of_nil|].
  destruct (N.eqb_spec c 44) as [->|Hne]; [apply not_elem_of_nil|].
  intros [Heq|Hin]%elem_of_cons; [congruence|contradiction].
Qed.

(** X6. Whatever [VITE_API_BASE] holds, the resolved API base is not empty,
    carries no comma and no leading or trailing white space; it is the
    trimmed text before the first comma of the variable when that text is
    not blank, and ["http://localhost:8000"] in every other case (variable
    undefined, empty, or with a blank first entry). *)
Theorem api_base_is_one_clean_url (VITE_API_BASE : option Js.Text) :
  AuthApiConfig.API_BASE VITE_API_BASE <> [] /\
  (44%N ∉ AuthApiConfig.API_BASE VITE_API_BASE) /\
  Js.trim (AuthApiConfig.API_BASE VITE_API_BASE)
    = AuthApiConfig.API_BASE VITE_API_BASE /\
  (forall v,
     VITE_API_BASE = Some v ->
     Js.trim (AuthApiConfig.first_field v) <> [] ->
     AuthApiConfig.API_BASE VITE_API_BASE
       = Js.trim (AuthApiConfig.first_field v)) /\
  ((forall v, VITE_API_BASE = Some v ->
              Js.trim (AuthApiConfig.first_field v) = []) ->
   AuthApiConfig.API_BASE VITE_API_BASE = AuthApiConfig.default_API_BASE).
Proof.
  assert (Hdefault : AuthApiConfig.default_API_BASE <> [] /\
                     (44%N ∉ AuthApiConfig.default_API_BASE) /\
                     Js.trim AuthApiConfig.default_API_BASE
                       = AuthApiConfig.default_API_BASE).
  { split; [discriminate|]. split; [|reflexivity].
    apply (bool_decide_unpack _). vm_compute. exact I. }
  destruct Hdefault as (Hd1 & Hd2 & Hd3).
  unfold AuthApiConfig.API_BASE.
  destruct VITE_API_BASE as [[|c v]|]; simpl Js.truthy; cbn [andb].
  - repeat split; try assumption.
    intros v [= <-] Hne. destruct Hne. reflexivity.
  - cbn [length Nat.ltb Nat.leb].
    destruct (Js.trim (AuthApiConfig.first_field (c :: v))) as [|f first]
      eqn:Hfirst.
    + cbn [length Nat.ltb Nat.leb]. repeat split; try assumption.
      intros v' [= <-] Hne. rewrite Hfirst in Hne. destruct Hne. reflexivity.
    + cbn [length Nat.ltb Nat.leb]. split; [discriminate|].
      split; [|split; [|split]].
      * intros Hcomma. apply (first_field_no_comma (c :: v)).
        apply trim_elements. rewrite Hfirst. exact Hcomma.
      * rewrite <- Hfirst. apply trim_idempotent.
      * intros v' [= <-] _. exact (eq_sym Hfirst).
      * intros Hblank. specialize (Hblank (c :: v) eq_refl).
        rewrite Hfirst in Hblank. discriminate.
  - repeat split; try assumption. intros v [=].
Qed.

(** ** The token and the interceptors *)

Lemma token_step_keeps_agreement (b : Browser) (ev : TokenEvent) :
  authToken b = localStorage b !! "authToken" ->
  authToken (token_step b ev) = localStorage (token_step b ev) !! "authToken".
Proof.
  intros Hagree. destruct ev as [token| |status|tok usr| |status]; simpl.
  - rewrite lookup_insert_eq. reflexivity.
  - rewrite lookup_delete_eq. reflexivity.
  - unfold AuthApiToken.response_error_interceptor.
    case_bool_decide; simpl; [rewrite lookup_delete_eq; reflexivity|exact Hagree].
  - rewrite !lookup_insert_ne by discriminate. exact Hagree.
  - rewrite !lookup_delete_ne by discriminate. exact Hagree.
  - unfold ExpertAuthContext.response_error_interceptor.
    case_bool_decide; simpl; [|exact Hagree].
    rewrite !lookup_delete_ne by discriminate. exact Hagree.
Qed.

Lemma token_run_snoc (events : list TokenEvent) (ev : TokenEvent)
    (b : Browser) :
  token_run (events ++ [ev]) b = token_step (token_run events b) ev.
Proof. unfold token_run. rewrite foldl_app. reflexivity. Qed.

Lemma token_run_agreement (events : list TokenEvent) (b : Browser) :
  authToken b = localStorage b !! "authToken" ->
  authToken (token_run events b)
    = localStorage (token_run events b) !! "authToken".
Proof.
  revert b. induction events as [|ev events IH]; intros b Hagree;
    [exact Hagree|].
  simpl. apply IH, token_step_keeps_agreement, Hagree.
Qed.

(** X7. From the load of the module on, through any sequence of logins,
    logouts and failed responses of either axios instance, [getAuthToken]
    returns what [localStorage] holds under ["authToken"]: the variable and
    the storage entry, which the request interceptor reads, never part.
    After a 401 on [api] both are gone, and the next call of the farmer
    leaves without an [Authorization] header. *)
Theorem auth_token_matches_storage
    (storage : gmap string string) (events : list TokenEvent) :
  AuthApiToken.getAuthToken (token_run events (AuthApiToken.load storage))
    = localStorage (token_run events (AuthApiToken.load storage))
        !! "authToken" /\
  (forall rid,
     AuthApiToken.getAuthToken
       (token_run (events ++ [ApiError (Some 401%Z)])
          (AuthApiToken.load storage)) = None /\
     AuthApiToken.authorization
       (outgoing
          (localStorage (token_run (events ++ [ApiError (Some 401%Z)])
                           (AuthApiToken.load storage)))
          (GetMessages user rid)) = None).
Proof.
  split.
  - apply token_run_agreement. reflexivity.
  - intros rid. rewrite token_run_snoc.
    cbn [token_step]. unfold AuthApiToken.response_error_interceptor.
    rewrite bool_decide_eq_true_2 by reflexivity.
    split; [reflexivity|].
    unfold outgoing, AuthApiToken.request_interceptor.
    cbn [AuthApiToken.clearAuthToken localStorage].
    rewrite lookup_delete_eq. reflexivity.
Qed.

Lemma bearer_truthy (token : string) :
  AuthApiToken.truthy (Some (String.append "Bearer " token)) = true.
Proof. reflexivity. Qed.

Lemma expert_call_authorization (storage : gmap string string)
    (expert_token : string) (c : Call) :
  storage !! "expert_token" = Some expert_token ->
  expert_token <> "" ->
  match c with
  | GetMessages expert _ | PostMessage expert _ _ _ | PostRead _
  | GetUnreadCount _ | GetPendingRequests | GetMyRequests => True
  | _ => False
  end ->
  AuthApiToken.authorization (outgoing storage c)
    = Some (String.append "Bearer " expert_token).
Proof.
  intros Htoken Hne Hcall.
  assert (Hheaders : AuthApiToken.expert_headers storage
            = Some {["Authorization" := String.append "Bearer " expert_token]}).
  { unfold AuthApiToken.expert_headers. rewrite Htoken. simpl.
    rewrite bool_decide_eq_false_2 by exact Hne. reflexivity. }
  assert (Hkeep : forall h,
            h !! "Authorization" = Some (String.append "Bearer " expert_token) ->
            AuthApiToken.authorization
              (AuthApiToken.request_interceptor
                 (Resolved (storage !! "authToken")) (mkRequestConfig (Some h)))
              = Some (String.append "Bearer " expert_token)).
  { intros h Hh. unfold AuthApiToken.request_interceptor.
    replace (AuthApiToken.truthy
               (AuthApiToken.authorization (mkRequestConfig (Some h))))
      with true; [rewrite andb_false_r; simpl; exact Hh|].
    unfold AuthApiToken.authorization. simpl. rewrite Hh. reflexivity. }
  destruct c as [| | | |[] rid|[] rid text upload|rid|rid]; try contradiction;
    unfold outgoing, AuthApiToken.config_of; try rewrite Hheaders.
  - unfold ExpertAuthContext.request_interceptor. rewrite Htoken. simpl.
    rewrite bool_decide_eq_false_2 by exact Hne. simpl.
    unfold AuthApiToken.authorization. simpl. apply lookup_insert_eq.
  - unfold ExpertAuthContext.request_interceptor. rewrite Htoken. simpl.
    rewrite bool_decide_eq_false_2 by exact Hne. simpl.
    unfold AuthApiToken.authorization. simpl. apply lookup_insert_eq.
  - apply Hkeep, lookup_singleton_eq.
  - apply Hkeep. simpl. apply lookup_union_Some_l, lookup_singleton_eq.
  - apply Hkeep, lookup_singleton_eq.
  - apply Hkeep, lookup_singleton_eq.
Qed.

(** X8. With an expert's token in [localStorage], every call of the expert
    side, and with them [markChatRead] and [getUnreadCount] whichever page
    issues them, leaves with the expert's token, whatever the farmer's token
    is; the farmer's own calls ([getExpertRequests], [startChatSession],
    [getChatMessages], [sendChatMessage]) leave with the farmer's token, or
    with no [Authorization] header when there is none, and never with the
    expert's.  Both sends keep their multipart content type. *)
Theorem expert_token_takes_precedence
    (storage : gmap string string) (expert_token : string)
    (rid : string) (text : Js.Text) (upload : option File) :
  storage !! "expert_token" = Some expert_token ->
  expert_token <> "" ->
  (forall c,
     In c [GetMessages expert rid; PostMessage expert rid text upload;
           PostRead rid; GetUnreadCount rid; GetPendingRequests;
           GetMyRequests] ->
     AuthApiToken.authorization (outgoing storage c)
       = Some (String.append "Bearer " expert_token)) /\
  (forall c,
     In c [GetExpertRequests; PostStart rid; GetMessages user rid;
           PostMessage user rid text upload] ->
     AuthApiToken.authorization (outgoing storage c)
       = if AuthApiToken.truthy (storage !! "authToken")
         then String.append "Bearer " <$> storage !! "authToken"
         else None) /\
  (forall who,
     headers (outgoing storage (PostMessage who rid text upload))
       ≫= (fun h => h !! "Content-Type") = Some "multipart/form-data").
Proof.
  intros Htoken Hne. split; [|split].
  - intros c Hc. apply (expert_call_authorization storage expert_token c);
      try assumption.
    simpl in Hc. destruct Hc as [<-|[<-|[<-|[<-|[<-|[<-|[]]]]]]]; exact I.
  - intros c Hc. simpl in Hc.
    unfold outgoing, AuthApiToken.request_interceptor,
      AuthApiToken.authorization.
    destruct Hc as [<-|[<-|[<-|[<-|[]]]]]; simpl;
      destruct (storage !! "authToken") as [t|]; simpl; try reflexivity;
      case_bool_decide; simpl; try reflexivity;
      rewrite lookup_insert_eq; reflexivity.
  - intros who.
    assert (Hheaders : AuthApiToken.expert_headers storage
              = Some {["Authorization" :=
                         String.append "Bearer " expert_token]}).
    { unfold AuthApiToken.expert_headers. rewrite Htoken. simpl.
      rewrite bool_decide_eq_false_2 by exact Hne. reflexivity. }
    unfold outgoing, AuthApiToken.request_interceptor,
      AuthApiToken.authorization.
    destruct who; cbn [AuthApiToken.config_of headers mbind option_bind].
    + destruct (storage !! "authToken") as [t|]; simpl; try reflexivity;
        case_bool_decide; simpl; try reflexivity;
        rewrite lookup_insert_ne by discriminate; reflexivity.
    + rewrite Hheaders. cbn [default]. unfold Datatypes.id.
      rewrite (lookup_union_Some_l _ _ _ _ (lookup_singleton_eq _ _)).
      cbn [AuthApiToken.truthy].
      rewrite andb_false_r. cbn [headers mbind option_bind].
      rewrite lookup_union_r by (apply lookup_singleton_ne; discriminate).
      apply lookup_singleton_eq.
Qed.

(** ** The server's count on the dashboards *)

Section ServerCount.
Variables (render : Dashboard) (http : Http).

Lemma expert_check_request_server (rid : string) (st : Dashboard)
    (data : Js.Value) :
  openChatId render <> Some rid ->
  get_unread_count http rid = Resolved data ->
  unreadCounts (fst (ExpertDashboard.check_request render http rid st)) !! rid
    = Some (AuthApi.unread_of_payload data) /\
  (forall msgs,
     AuthApi.unread_of_payload data = 0%Z ->
     get_messages http expert rid = Resolved msgs ->
     lastMessageCounts
       (fst (ExpertDashboard.check_request render http rid st)) !! rid
       = Some (count_sent_by user msgs)) /\
  (AuthApi.unread_of_payload data <> 0%Z ->
   lastMessageCounts
     (fst (ExpertDashboard.check_request render http rid st))
     = lastMessageCounts st).
Proof.
  intros Hopen Hunread. unfold ExpertDashboard.check_request.
  rewrite bool_decide_eq_false_2 by exact Hopen.
  run_task. rewrite Hunread. simpl.
  destruct (Z.eqb_spec (AuthApi.unread_of_payload data) 0) as [Hzero|Hpos];
    simpl.
  - destruct (get_messages http expert rid) as [msgs'|e]; simpl;
      rewrite ?lookup_insert_eq.
    + split; [reflexivity|]. split; [|contradiction].
      intros msgs _ [= <-]. reflexivity.
    + split; [reflexivity|]. split; [|contradiction].
      intros msgs _ [=].
  - rewrite lookup_insert_eq. split; [reflexivity|].
    split; [contradiction|reflexivity].
Qed.

Lemma farmer_check_request_server (rid : string) (st : Dashboard)
    (data : Js.Value) :
  openChatId render <> Some rid ->
  get_unread_count http rid = Resolved data ->
  unreadCounts (fst (ExpertConsultation.check_request render http rid st))
    !! rid = Some (AuthApi.unread_of_payload data).
Proof.
  intros Hopen Hunread. unfold ExpertConsultation.check_request.
  rewrite bool_decide_eq_false_2 by exact Hopen.
  run_task. rewrite Hunread. simpl. apply lookup_insert_eq.
Qed.

End ServerCount.

(** X9. On either dashboard, when the list of requests is fetched and the
    unread-count request of a listed request that is not the open one
    succeeds, the tick sets the badge of that request to the count of the
    server, whatever it showed before (earlier local increments are
    overwritten).  On the expert's dashboard a count of 0 also sets the
    baseline to the number of the farmer's messages, when the message list
    can be fetched. *)
Theorem server_count_overrides_local
    (render : Dashboard) (http : Http) (st : Dashboard)
    (rid : string) (data : Js.Value) :
  openChatId render <> Some rid ->
  get_unread_count http rid = Resolved data ->
  (forall data',
     get_expert_requests http = Resolved data' -> In rid data' ->
     displayed_unread
       (fst (ExpertConsultation.checkForNewMessages render http st)) rid
       = AuthApi.unread_of_payload data) /\
  (forall pending mine,
     get_pending_requests http = Resolved pending ->
     get_my_requests http = Resolved mine ->
     In rid (pending ++ mine) ->
     displayed_unread
       (fst (ExpertDashboard.checkForNewMessages render http st)) rid
       = AuthApi.unread_of_payload data /\
     (forall msgs,
        AuthApi.unread_of_payload data = 0%Z ->
        get_messages http expert rid = Resolved msgs ->
        lastMessageCounts
          (fst (ExpertDashboard.checkForNewMessages render http st)) !! rid
          = Some (count_sent_by user msgs))).
Proof.
  intros Hopen Hunread. split.
  - intros data' Hdata Hin. unfold displayed_unread.
    rewrite (farmer_tick_run render http st data' Hdata).
    rewrite (for_of_establishes
               (fun s => unreadCounts s !! rid
                         = Some (AuthApi.unread_of_payload data))
               data' _ rid Hin).
    + apply or_zero_some.
    + apply farmer_check_request_never_rejects.
    + intros x s Hs. destruct (decide (x = rid)) as [->|Hne].
      * apply farmer_check_request_server; assumption.
      * destruct (farmer_check_request_other render http x rid s Hne)
          as [Hu _].
        rewrite Hu. exact Hs.
    + intros s. apply farmer_check_request_server; assumption.
  - intros pending mine Hpending Hmine Hin.
    rewrite (expert_tick_run render http st pending mine Hpending Hmine).
    split.
    + unfold displayed_unread.
      rewrite (for_of_establishes
                 (fun s => unreadCounts s !! rid
                           = Some (AuthApi.unread_of_payload data))
                 (pending ++ mine) _ rid Hin).
      * apply or_zero_some.
      * apply expert_check_request_never_rejects.
      * intros x s Hs. destruct (decide (x = rid)) as [->|Hne].
        -- apply expert_check_request_server; assumption.
        -- destruct (expert_check_request_other render http x rid s Hne)
             as [Hu _].
           rewrite Hu. exact Hs.
      * intros s. apply expert_check_request_server; assumption.
    + intros msgs Hzero Hmsgs.
      apply (for_of_establishes
               (fun s => lastMessageCounts s !! rid
                         = Some (count_sent_by user msgs))
               (pending ++ mine) _ rid Hin).
      * apply expert_check_request_never_rejects.
      * intros x s Hs. destruct (decide (x = rid)) as [->|Hne].
        -- apply (expert_check_request_server render http rid s data);
             assumption.
        -- destruct (expert_check_request_other render http x rid s Hne)
             as [_ Hl].
           rewrite Hl. exact Hs.
      * intros s.
        apply (expert_check_request_server render http rid s data);
          assumption.
Qed.

(** ** What a poll tick leaves alone *)

Lemma for_of_preserves_listed {S X : Type} (P : S -> Prop) (xs : list X)
    (body : X -> Task S unit) :
  (forall x s, In x xs -> P s -> P (fst (body x s))) ->
  forall s, P s -> P (fst (for_of xs body s)).
Proof.
  induction xs as [|x xs IH]; intros Hkeep s Hs; simpl; [exact Hs|].
  unfold bind. pose proof (Hkeep x s (or_introl eq_refl) Hs) as Hx.
  destruct (body x s) as [s' [[]|e]]; simpl in *; [|exact Hx].
  apply IH; [|exact Hx]. intros y t Hy. apply Hkeep. right. exact Hy.
Qed.

Section TickFrame.
Variables (render : Dashboard) (http : Http).

Lemma expert_check_request_frame (rid : string) (st : Dashboard) :
  openChatId (fst (ExpertDashboard.check_request render http rid st))
    = openChatId st /\
  showChat (fst (ExpertDashboard.check_request render http rid st))
    = showChat st /\
  selectedChat (fst (ExpertDashboard.check_request render http rid st))
    = selectedChat st.
Proof.
  unfold ExpertDashboard.check_request.
  case_bool_decide; [auto|]. run_task.
  destruct (get_unread_count http rid) as [data|e]; simpl.
  - destruct (AuthApi.unread_of_payload data =? 0)%Z; simpl; [|auto].
    destruct (get_messages http expert rid); simpl; auto.
  - destruct (get_messages http expert rid); simpl; auto.
Qed.

Lemma farmer_check_request_frame (rid : string) (st : Dashboard) :
  openChatId (fst (ExpertConsultation.check_request render http rid st))
    = openChatId st /\
  showChat (fst (ExpertConsultation.check_request render http rid st))
    = showChat st /\
  selectedChat (fst (ExpertConsultation.check_request render http rid st))
    = selectedChat st /\
  lastMessageCounts
    (fst (ExpertConsultation.check_request render http rid st))
    = lastMessageCounts st.
Proof.
  unfold ExpertConsultation.check_request.
  case_bool_decide; [auto|]. run_task.
  destruct (get_unread_count http rid) as [data|e]; simpl; auto.
Qed.

End TickFrame.

(** X10. A poll tick of either dashboard changes nothing but unread counts
    and, on the expert's dashboard, baselines: the open chat, the selected
    chat and the visibility of the panel stay as they are, the farmer's tick
    never writes a baseline, and the entries of a request that is not in the
    fetched list are untouched.  When the list of requests cannot be
    fetched, no count and no baseline changes at all. *)
Theorem poll_tick_touches_listed_counts_only
    (render : Dashboard) (http : Http) (st : Dashboard) :
  (openChatId (fst (ExpertDashboard.checkForNewMessages render http st))
     = openChatId st /\
   showChat (fst (ExpertDashboard.checkForNewMessages render http st))
     = showChat st /\
   selectedChat (fst (ExpertDashboard.checkForNewMessages render http st))
     = selectedChat st) /\
  (openChatId (fst (ExpertConsultation.checkForNewMessages render http st))
     = openChatId st /\
   showChat (fst (ExpertConsultation.checkForNewMessages render http st))
     = showChat st /\
   selectedChat (fst (ExpertConsultation.checkForNewMessages render http st))
     = selectedChat st /\
   lastMessageCounts
     (fst (ExpertConsultation.checkForNewMessages render http st))
     = lastMessageCounts st) /\
  (forall pending mine rid,
     get_pending_requests http = Resolved pending ->
     get_my_requests http = Resolved mine ->
     ~ In rid (pending ++ mine) ->
     unreadCounts (fst (ExpertDashboard.checkForNewMessages render http st))
       !! rid = unreadCounts st !! rid /\
     lastMessageCounts
       (fst (ExpertDashboard.checkForNewMessages render http st))
       !! rid = lastMessageCounts st !! rid) /\
  (forall data rid,
     get_expert_requests http = Resolved data ->
     ~ In rid data ->
     unreadCounts
       (fst (ExpertConsultation.checkForNewMessages render http st))
       !! rid = unreadCounts st !! rid) /\
  ((forall pending mine,
      get_pending_requests http = Resolved pending ->
      get_my_requests http = Resolved mine -> False) ->
   unreadCounts (fst (ExpertDashboard.checkForNewMessages render http st))
     = unreadCounts st /\
   lastMessageCounts
     (fst (ExpertDashboard.checkForNewMessages render http st))
     = lastMessageCounts st) /\
  ((forall data, get_expert_requests http = Resolved data -> False) ->
   unreadCounts (fst (ExpertConsultation.checkForNewMessages render http st))
     = unreadCounts st).
Proof.
  assert (Hfarmer_fail :
    forall e, get_expert_requests http = Rejected e ->
      fst (ExpertConsultation.checkForNewMessages render http st)
        = record_call GetExpertRequests st).
  { intros e He.
    unfold ExpertConsultation.checkForNewMessages, try_catch, bind,
      AuthApi.getExpertRequests, request.
    rewrite He. reflexivity. }
  split; [|split; [|split; [|split; [|split]]]].
  - destruct (get_pending_requests http) as [pending|e1] eqn:Hpending;
      [destruct (get_my_requests http) as [mine|e2] eqn:Hmine|].
    + rewrite (expert_tick_run render http st pending mine Hpending Hmine).
      apply (for_of_preserves
               (fun s => openChatId s = openChatId st /\
                         showChat s = showChat st /\
                         selectedChat s = selectedChat st));
        [|auto].
      intros x s (H1 & H2 & H3).
      destruct (expert_check_request_frame render http x s) as (-> & -> & ->).
      auto.
    + rewrite expert_tick_failed_fetch; [auto|].
      intros p m _ Hm. rewrite Hmine in Hm. discriminate.
    + rewrite expert_tick_failed_fetch; [auto|].
      intros p m Hp _. rewrite Hpending in Hp. discriminate.
  - destruct (get_expert_requests http) as [data|e] eqn:Hdata.
    + rewrite (farmer_tick_run render http st data Hdata).
      apply (for_of_preserves
               (fun s => openChatId s = openChatId st /\
                         showChat s = showChat st /\
                         selectedChat s = selectedChat st /\
                         lastMessageCounts s = lastMessageCounts st));
        [|auto].
      intros x s (H1 & H2 & H3 & H4).
      destruct (farmer_check_request_frame render http x s)
        as (-> & -> & -> & ->).
      auto.
    + rewrite (Hfarmer_fail e eq_refl). auto.
  - intros pending mine rid Hpending Hmine Hout.
    rewrite (expert_tick_run render http st pending mine Hpending Hmine).
    apply (for_of_preserves_listed
             (fun s => unreadCounts s !! rid = unreadCounts st !! rid /\
                       lastMessageCounts s !! rid
                         = lastMessageCounts st !! rid));
      [|auto].
    intros x s Hx [Hu Hl].
    assert (Hne : x <> rid) by (intros ->; contradiction).
    destruct (expert_check_request_other render http x rid s Hne)
      as [Hu' Hl'].
    rewrite Hu', Hl'. auto.
  - intros data rid Hdata Hout.
    rewrite (farmer_tick_run render http st data Hdata).
    apply (for_of_preserves_listed
             (fun s => unreadCounts s !! rid = unreadCounts st !! rid));
      [|auto].
    intros x s Hx Hu.
    assert (Hne : x <> rid) by (intros ->; contradiction).
    destruct (farmer_check_request_other render http x rid s Hne)
      as [Hu' _].
    rewrite Hu'. exact Hu.
  - intros Hfail. rewrite expert_tick_failed_fetch by exact Hfail. auto.
  - intros Hfail.
    destruct (get_expert_requests http) as [data|e] eqn:Hdata.
    + destruct (Hfail data eq_refl).
    + rewrite (Hfarmer_fail e eq_refl). reflexivity.
Qed.

(** ** Notifications on the dashboards

    [handleNewMessage] is called through the [onNewMessage] prop of the chat
    panel only, and the panel is rendered once [handleStartChat] or
    [openChat] has set [openChatId] to the request of the panel: the handler
    that a panel calls reads that request as the open chat. *)

Lemma expert_handleNewMessage_open (render : Dashboard) (rid : string)
    (st : Dashboard) :
  openChatId render = Some rid ->
  displayed_unread (ExpertDashboard.handleNewMessage render rid st) rid = 0%Z /\
  lastMessageCounts (ExpertDashboard.handleNewMessage render rid st)
    = lastMessageCounts st /\
  (forall other, other <> rid ->
     unreadCounts (ExpertDashboard.handleNewMessage render rid st) !! other
       = unreadCounts st !! other).
Proof.
  intros Hopen. unfold displayed_unread, ExpertDashboard.handleNewMessage.
  rewrite bool_decide_eq_true_2 by exact Hopen. simpl.
  rewrite lookup_insert_eq.
  split; [reflexivity|]. split; [reflexivity|].
  intros other Hne. apply lookup_insert_ne. congruence.
Qed.

Lemma farmer_handleNewMessage_open (render : Dashboard) (rid : string)
    (st : Dashboard) :
  openChatId render = Some rid ->
  displayed_unread (ExpertConsultation.handleNewMessage render rid st) rid
    = 0%Z /\
  Js.or_zero
    (lastMessageCounts (ExpertConsultation.handleNewMessage render rid st)
       !! rid)
    = (Js.or_zero (lastMessageCounts st !! rid) + 1)%Z /\
  (forall other, other <> rid ->
     unreadCounts (ExpertConsultation.handleNewMessage render rid st) !! other
       = unreadCounts st !! other /\
     lastMessageCounts (ExpertConsultation.handleNewMessage render rid st)
       !! other = lastMessageCounts st !! other).
Proof.
  intros Hopen. unfold displayed_unread, ExpertConsultation.handleNewMessage.
  rewrite bool_decide_eq_true_2 by exact Hopen. simpl.
  rewrite !lookup_insert_eq, !or_zero_some.
  split; [reflexivity|]. split; [reflexivity|].
  intros other Hne.
  rewrite !lookup_insert_ne by congruence. split; reflexivity.
Qed.

(** X11. A notification of the chat panel never raises a badge.  The
    handler that a panel calls reads the request of the panel as the open
    chat, and then [n] notifications leave the badge of that chat at 0 (as
    it was when [n] is 0) and the badges of the other chats as they were, on
    either page.  The expert's dashboard keeps every baseline; the farmer's
    page raises the baseline of the chat by exactly [n], one per
    notification, and keeps the other baselines. *)
Theorem notifications_keep_the_open_chat_read
    (render : Dashboard) (rid : string) (st : Dashboard) (n : nat) :
  openChatId render = Some rid ->
  (displayed_unread
     (Nat.iter n (ExpertDashboard.handleNewMessage render rid) st) rid
     = match n with O => displayed_unread st rid | S _ => 0%Z end /\
   lastMessageCounts
     (Nat.iter n (ExpertDashboard.handleNewMessage render rid) st)
     = lastMessageCounts st /\
   (forall other, other <> rid ->
      unreadCounts
        (Nat.iter n (ExpertDashboard.handleNewMessage render rid) st)
        !! other = unreadCounts st !! other)) /\
  (displayed_unread
     (Nat.iter n (ExpertConsultation.handleNewMessage render rid) st) rid
     = match n with O => displayed_unread st rid | S _ => 0%Z end /\
   Js.or_zero
     (lastMessageCounts
        (Nat.iter n (ExpertConsultation.handleNewMessage render rid) st)
        !! rid)
     = (Js.or_zero (lastMessageCounts st !! rid) + Z.of_nat n)%Z /\
   (forall other, other <> rid ->
      unreadCounts
        (Nat.iter n (ExpertConsultation.handleNewMessage render rid) st)
        !! other = unreadCounts st !! other /\
      lastMessageCounts
        (Nat.iter n (ExpertConsultation.handleNewMessage render rid) st)
        !! other = lastMessageCounts st !! other)).
Proof.
  intros Hopen. induction n as [|n [IHe IHf]].
  - simpl. rewrite Z.add_0_r. auto 10.
  - rewrite Nat2Z.inj_succ, !Nat.iter_succ. split.
    + destruct IHe as (_ & Hl & Ho).
      destruct (expert_handleNewMessage_open render rid
                  (Nat.iter n (ExpertDashboard.handleNewMessage render rid) st)
                  Hopen) as (Hu' & Hl' & Ho').
      rewrite Hu', Hl', Hl. split; [reflexivity|]. split; [reflexivity|].
      intros other Hne. rewrite Ho', Ho by exact Hne. reflexivity.
    + destruct IHf as (_ & Hl & Ho).
      destruct (farmer_handleNewMessage_open render rid
                  (Nat.iter n (ExpertConsultation.handleNewMessage render rid)
                     st)
                  Hopen) as (Hu' & Hl' & Ho').
      rewrite Hu', Hl', Hl. split; [reflexivity|]. split; [lia|].
      intros other Hne.
      destruct (Ho' other Hne) as [Hou' Hol'].
      destruct (Ho other Hne) as [Hou Hol].
      rewrite Hou', Hol', Hou, Hol. split; reflexivity.
Qed.

(** ** One send, one request *)

(** X12. A run of the send handler of either panel issues exactly one send
    request when the compose box holds a text that is not blank or a file
    and no send is in flight, and no request otherwise; the request carries
    the text as typed, not trimmed, and the file.  No other call is issued,
    no notification is raised, and after a send that was issued the
    [sending] flag is down again whatever the backend answered. *)
Theorem send_issues_exactly_one_request
    (who : Sender) (failure_text : string) (props : PanelProps) (http : Http)
    (st : PanelState) :
  let st' := fst (ChatPanel.handleSend who failure_text props http st) in
  ((Js.trim (newMessage st) <> [] \/ file st <> None) /\ sending st = false ->
   panel_calls st'
     = panel_calls st
         ++ [PostMessage who (requestId props) (newMessage st) (file st)] /\
   sending st' = false) /\
  (~ ((Js.trim (newMessage st) <> [] \/ file st <> None) /\
      sending st = false) ->
   st' = st) /\
  notifications st' = notifications st.
Proof.
  intros st'. subst st'.
  pose proof (nothing_to_send_false_iff st) as Hguard.
  destruct (ChatPanel.nothing_to_send st) eqn:Hblocked.
  - rewrite handleSend_blocked by exact Hblocked. simpl.
    split; [|split; reflexivity].
    intros Hok. apply Hguard in Hok. discriminate.
  - destruct (post_message http who (requestId props) (newMessage st)
                (file st)) as [msg|e] eqn:Hout.
    + rewrite (handleSend_resolved who failure_text props http st msg
                 Hblocked Hout). simpl.
      split; [auto|]. split; [|reflexivity].
      intros Hnot. destruct Hnot. apply Hguard. reflexivity.
    + rewrite (handleSend_rejected who failure_text props http st e
                 Hblocked Hout). simpl.
      split; [auto|]. split; [|reflexivity].
      intros Hnot. destruct Hnot. apply Hguard. reflexivity.
Qed.

(** ** Loading a panel *)

(** X13. Loading a chat panel never fails.  When the session request is
    answered with a session, the panel shows its messages (none when the
    session has no message list) and asks for nothing else.  When the
    session request fails, or is answered with [null], whose [messages]
    cannot be read, the panel asks for the message list: it shows that list
    when it arrives, and otherwise the farmer's panel keeps what it showed
    and the expert's panel shows an empty list.  The expert's [loading]
    flag is down afterwards in every case. *)
Theorem panel_load_falls_back_on_the_message_list
    (props : PanelProps) (http : Http) (sessions : SessionHttp)
    (st : PanelState) (est : ExpertPanelState) :
  let farmer := UserChatPanelInit.init props http sessions st in
  let consultant := ExpertChatPanelInit.fetchChat props http sessions est in
  (snd farmer = Resolved tt /\ snd consultant = Resolved tt /\
   loading (fst consultant) = false) /\
  (forall listed,
     get_session sessions user (requestId props)
       = Resolved (session_body listed) ->
     messages (fst farmer) = default [] listed /\
     panel_calls (fst farmer) = panel_calls st) /\
  (forall listed,
     get_session sessions expert (requestId props)
       = Resolved (session_body listed) ->
     messages (expert_panel (fst consultant)) = default [] listed /\
     panel_calls (expert_panel (fst consultant))
       = panel_calls (expert_panel est)) /\
  ((forall listed,
      get_session sessions user (requestId props)
        <> Resolved (session_body listed)) ->
   panel_calls (fst farmer)
     = panel_calls st ++ [GetMessages user (requestId props)] /\
   messages (fst farmer)
     = match get_messages http user (requestId props) with
       | Resolved msgs => msgs
       | Rejected _ => messages st
       end) /\
  ((forall listed,
      get_session sessions expert (requestId props)
        <> Resolved (session_body listed)) ->
   panel_calls (expert_panel (fst consultant))
     = panel_calls (expert_panel est)
         ++ [GetMessages expert (requestId props)] /\
   messages (expert_panel (fst consultant))
     = match get_messages http expert (requestId props) with
       | Resolved msgs => msgs
       | Rejected _ => []
       end).
Proof.
  intros farmer consultant. subst farmer consultant.
  unfold UserChatPanelInit.init, ExpertChatPanelInit.fetchChat, finally,
    fetch_session, messages_or_empty.
  run_task.
  destruct (get_session sessions user (requestId props)) as [[|us]|ue];
    destruct (get_session sessions expert (requestId props)) as [[|es]|ee];
    destruct (get_messages http user (requestId props)) as [um|ume];
    destruct (get_messages http expert (requestId props)) as [em|eme];
    simpl; repeat split; intros; try discriminate;
    repeat match goal with
           | H : Resolved _ = Resolved _ |- _ => injection H as <-
           | H : forall listed, Resolved (session_body ?l) <> _ |- _ =>
               destruct (H l eq_refl)
           end;
    reflexivity.
Qed.

(** ** Loading the farmer's page *)

Lemma count_request_run (http : Http) (rid : string) (counts : gmap string Z)
    (st : ConsultationPage) :
  ExpertConsultationPage.count_request http rid counts st =
    (record_call (GetMessages user rid) st,
     Resolved (<[rid := match get_messages http user rid with
                        | Resolved msgs => count_sent_by expert msgs
                        | Rejected _ => 0%Z
                        end]> counts)).
Proof.
  unfold ExpertConsultationPage.count_request. run_task.
  destruct (get_messages http user rid); reflexivity.
Qed.

Lemma initial_counts_run (http : Http) (data : list string)
    (counts : gmap string Z) (st : ConsultationPage) :
  exists st' result,
    for_of_with data counts (ExpertConsultationPage.count_request http) st
      = (st', Resolved result) /\
    page_requests st' = page_requests st /\
    page_loading st' = page_loading st /\
    unreadCounts (page_chat st') = unreadCounts (page_chat st) /\
    lastMessageCounts (page_chat st') = lastMessageCounts (page_chat st) /\
    openChatId (page_chat st') = openChatId (page_chat st) /\
    (forall rid,
       result !! rid =
         if bool_decide (rid ∈ data) then
           Some (match get_messages http user rid with
                 | Resolved msgs => count_sent_by expert msgs
                 | Rejected _ => 0%Z
                 end)
         else counts !! rid).
Proof.
  revert counts st. induction data as [|x data IH]; intros counts st.
  - exists st, counts. simpl. repeat split; reflexivity.
  - simpl. unfold bind. rewrite count_request_run.
    destruct (IH (<[x := match get_messages http user x with
                         | Resolved msgs => count_sent_by expert msgs
                         | Rejected _ => 0%Z
                         end]> counts)
                 (record_call (GetMessages user x) st))
      as (st' & result & Hrun & Hreq & Hload & Hunread & Hlast & Hopen & Hlookup).
    exists st', result. rewrite Hrun.
    split; [reflexivity|]. split; [exact Hreq|]. split; [exact Hload|].
    split; [exact Hunread|]. split; [exact Hlast|]. split; [exact Hopen|].
    intros rid. rewrite Hlookup.
    destruct (decide (rid ∈ data)) as [Hin|Hout].
    + rewrite !bool_decide_eq_true_2;
        [reflexivity|apply list_elem_of_further, Hin|exact Hin].
    + rewrite (bool_decide_eq_false_2 _ Hout).
      destruct (decide (x = rid)) as [->|Hne].
      * rewrite bool_decide_eq_true_2 by apply list_elem_of_here.
        apply lookup_insert_eq.
      * rewrite bool_decide_eq_false_2.
        -- apply lookup_insert_ne, Hne.
        -- intros [Heq|Hin]%elem_of_cons; [congruence|contradiction].
Qed.

(** X14. [fetchRequests] never fails and always ends the [loading] state.
    When the list of requests is fetched it becomes the list shown, and the
    baseline map is replaced by one that has an entry for each listed
    request and for no other: the number of the expert's messages of the
    conversation, or 0 when its messages cannot be fetched.  When the list
    cannot be fetched the requests shown and the baseline stay as they
    were.  Unread counts and the open chat are never touched. *)
Theorem fetch_requests_initialises_the_baseline
    (http : Http) (st : ConsultationPage) :
  let st' := fst (ExpertConsultationPage.fetchRequests http st) in
  snd (ExpertConsultationPage.fetchRequests http st) = Resolved tt /\
  page_loading st' = false /\
  unreadCounts (page_chat st') = unreadCounts (page_chat st) /\
  openChatId (page_chat st') = openChatId (page_chat st) /\
  (forall data,
     get_expert_requests http = Resolved data ->
     page_requests st' = data /\
     (forall rid,
        lastMessageCounts (page_chat st') !! rid =
          if bool_decide (rid ∈ data) then
            Some (match get_messages http user rid with
                  | Resolved msgs => count_sent_by expert msgs
                  | Rejected _ => 0%Z
                  end)
          else None)) /\
  (forall e,
     get_expert_requests http = Rejected e ->
     page_requests st' = page_requests st /\
     lastMessageCounts (page_chat st') = lastMessageCounts (page_chat st)).
Proof.
  intros st'. subst st'.
  unfold ExpertConsultationPage.fetchRequests, finally, try_catch, bind,
    AuthApi.getExpertRequests, request, modify.
  destruct (get_expert_requests http) as [data|e]; simpl.
  - destruct (initial_counts_run http data ∅
                (setRequests data (record_call GetExpertRequests st)))
      as (st1 & result & Hrun & Hreq & Hload & Hunread & Hlast & Hopen
          & Hlookup).
    rewrite Hrun. simpl.
    split; [reflexivity|]. split; [reflexivity|].
    split; [exact Hunread|]. split; [exact Hopen|].
    split.
    + intros data' [= <-]. split; [exact Hreq|].
      intros rid. rewrite Hlookup. case_bool_decide; [reflexivity|].
      apply lookup_empty.
    + intros e [=].
  - repeat split; try reflexivity; intros; try discriminate; reflexivity.
Qed.

(** ** Opening a chat and closing it again *)

(** X15. Opening a chat and closing it again ends, on either page and
    whatever the backend answers, with no chat open, the panel hidden and
    the badge of that chat at 0, the badges of the other chats being as
    before; the expert's dashboard leaves every baseline alone, and the
    farmer's page keeps the chat selected after closing.  [openChat] of the
    farmer's page asks for the mark-read only when the session could be
    started: when [startChatSession] fails the badge is set to 0 although
    no mark-read request was issued. *)
Theorem open_then_close_clears_the_badge
    (http : Http) (rid : string) (st : Dashboard) :
  let expert_opened :=
    fst ((ExpertDashboard.handleStartChat http rid ;;
          ExpertDashboardPage.panel_mounted http rid) st) in
  let expert_closed :=
    fst (ExpertDashboardPage.panel_closed expert_opened http expert_opened) in
  let farmer_opened :=
    fst ((ExpertConsultation.openChat http rid ;;
          ExpertConsultationPage.panel_mounted http rid) st) in
  let farmer_closed :=
    fst (ExpertConsultationPage.panel_closed farmer_opened) in
  (openChatId expert_opened = Some rid /\ showChat expert_opened = true /\
   displayed_unread expert_opened rid = 0%Z) /\
  (openChatId expert_closed = None /\ showChat expert_closed = false /\
   selectedChat expert_closed = None /\
   displayed_unread expert_closed rid = 0%Z /\
   lastMessageCounts expert_closed = lastMessageCounts st) /\
  (openChatId farmer_opened = Some rid /\ showChat farmer_opened = true /\
   displayed_unread farmer_opened rid = 0%Z) /\
  (openChatId farmer_closed = None /\ showChat farmer_closed = false /\
   selectedChat farmer_closed = Some rid /\
   displayed_unread farmer_closed rid = 0%Z) /\
  (forall other, other <> rid ->
     unreadCounts expert_closed !! other = unreadCounts st !! other /\
     unreadCounts farmer_closed !! other = unreadCounts st !! other) /\
  dashboard_calls (fst (ExpertConsultation.openChat http rid st))
    = dashboard_calls st
        ++ PostStart rid
           :: (if is_resolved (post_start http rid) then [PostRead rid]
               else []) /\
  displayed_unread (fst (ExpertConsultation.openChat http rid st)) rid = 0%Z.
Proof.
  cbv zeta.
  unfold ExpertDashboardPage.panel_closed, ExpertDashboardPage.panel_mounted,
    ExpertConsultationPage.panel_closed, ExpertConsultationPage.panel_mounted,
    ExpertDashboard.handleStartChat, ExpertDashboard.handleCloseChat,
    ExpertDashboard.markMessagesAsRead, ExpertConsultation.openChat,
    ExpertConsultation.markMessagesAsRead, displayed_unread.
  unfold AuthApi.getChatMessages, AuthApi.markChatRead,
    AuthApi.startChatSession, try_catch, bind, modify, ret, request.
  destruct (post_read http rid) as [[]|er] eqn:Hread;
    destruct (post_start http rid) as [[]|es];
    destruct (get_messages http user rid) as [msgs|em];
    simpl; rewrite ?Hread; simpl;
    rewrite ?lookup_insert_eq, <- ?(assoc_L (++)); simpl;
    repeat split; try reflexivity;
    rewrite ?lookup_insert_ne by congruence; reflexivity.
Qed.

(** ** Examples of the properties above *)

Lemma day_blocks_are_grouped_as_they_are_witness :
  ExpertChatPanelList.groupedMessages (fun ts => ts)
    (concat (snd <$> two_days)) = two_days.
Proof.
  refine (proj1 (day_blocks_are_grouped_as_they_are (fun ts => ts) two_days
                   _ _)).
  - apply (bool_decide_unpack _). vm_compute. exact I.
  - repeat constructor; discriminate.
Defined.

Lemma both_panels_print_the_same_days_witness :
  UserChatPanelList.separator_days (fun ts => ts)
    (UserChatPanelList.rows (fun ts => ts) (concat (snd <$> two_days)))
    = ["2025-01-01"; "2025-01-02"].
Proof.
  refine (proj2 (both_panels_print_the_same_days (fun ts => ts) two_days
                   _ _)).
  - apply (bool_decide_unpack _). vm_compute. exact I.
  - repeat constructor; discriminate.
Defined.

Lemma expert_token_takes_precedence_witness :
  AuthApiToken.authorization (outgoing both_tokens (GetUnreadCount "r1"))
    = Some "Bearer expert-jwt" /\
  AuthApiToken.authorization (outgoing both_tokens (GetMessages user "r1"))
    = Some "Bearer farmer-jwt".
Proof.
  destruct (expert_token_takes_precedence both_tokens "expert-jwt" "r1"
              [] None eq_refl ltac:(discriminate)) as (Hexpert & Hfarmer & _).
  split.
  - apply Hexpert. simpl. auto.
  - rewrite Hfarmer by (simpl; auto). reflexivity.
Defined.

Lemma server_count_overrides_local_witness :
  displayed_unread
    (fst (ExpertConsultation.checkForNewMessages initial_render
            two_unread_http (dashboard_with 7 0))) "r1" = 2%Z.
Proof.
  destruct (server_count_overrides_local initial_render two_unread_http
              (dashboard_with 7 0) "r1"
              (Js.VObject [("unread", Js.VNumber 2)])
              ltac:(discriminate) eq_refl) as [Hfarmer _].
  apply (Hfarmer ["r1"] eq_refl). simpl. auto.
Defined.

Lemma notifications_keep_the_open_chat_read_witness :
  displayed_unread
    (Nat.iter 3
       (ExpertConsultation.handleNewMessage
          (fst (ExpertConsultation.openChat two_unread_http "r1"
                  initial_render)) "r1")
       (dashboard_with 2 1)) "r1" = 0%Z /\
  Js.or_zero
    (lastMessageCounts
       (Nat.iter 3
          (ExpertConsultation.handleNewMessage
             (fst (ExpertConsultation.openChat two_unread_http "r1"
                     initial_render)) "r1")
          (dashboard_with 2 1)) !! "r1") = 4%Z.
Proof.
  destruct (notifications_keep_the_open_chat_read
              (fst (ExpertConsultation.openChat two_unread_http "r1"
                      initial_render))
              "r1" (dashboard_with 2 1) 3 eq_refl)
    as [_ (Hcount & Hbase & _)].
  split; [exact Hcount|]. rewrite Hbase. reflexivity.
Defined.
